(** * Graph_RAG: history store, process orchestration, settings projector,
      artifact loader and progress classifier

    A shallow embedding of [database.py], [utils.py] and the indexing
    handler of [app.py], with the properties of the specification stated
    over it.

    Conventions of the embedding.
    - Text is [string] (8-bit characters), the bytes that SQLite and
      the file system hold; [str.lower] acts on the letters [A]..[Z].
      Where the bytes of a Python [str] are not a given (the
      parameters of an SQL statement), the [str] is the list of its
      code points, [Py.str], and [Py.utf8_encode] is its UTF-8 form.
    - A Python call either returns or raises: [outcome].  The names a
      module binds at top level are a [gset string]; a read of an
      unbound global raises [NameError], as the interpreter does.
    - The SQLite file is the record [store]; each function of
      [database.py] is a computation in the state-and-exception monad
      [db].
    - The file system, the child process, the clock and the YAML and
      Parquet codecs are inputs of the functions that use them.
    - What the machine runs out of is not described: memory, disk
      space, permissions, and the limit of SQLite on the size of one
      value.  The one exception is the rowid space of SQLite, which
      [save_query] can exhaust. *)

From Stdlib Require Import ZArith NArith Lia Ascii.
From Stdlib Require QArith.
From stdpp Require Import base option list sorting strings pretty gmap.

(** ** Python outcomes *)

Module Py.

(** The exception classes that the modelled code can meet. *)
Inductive exn : Type :=
| NameError (name : string)
| TypeError (msg : string)
| KeyError (key : string)
| TimeoutExpired
| OSError (msg : string)
| OperationalError (msg : string)
| YAMLError (msg : string)
| UnicodeEncodeError (msg : string)
| OverflowError (msg : string)
| ValueError (msg : string).

(** [str(e)], as the f-strings of [utils.py] print an exception. *)
Definition exn_str (e : exn) : string :=
  match e with
  | NameError n => "name '" +:+ n +:+ "' is not defined"
  | TypeError m => m
  | KeyError k => "'" +:+ k +:+ "'"
  | TimeoutExpired => "Command timed out"
  | OSError m => m
  | OperationalError m => m
  | YAMLError m => m
  | UnicodeEncodeError m => m
  | OverflowError m => m
  | ValueError m => m
  end.

Inductive outcome (A : Type) : Type :=
| Return (a : A)
| Raise (e : exn).
Global Arguments Return {A} a.
Global Arguments Raise {A} e.

Global Instance outcome_ret : MRet outcome := @Return.
Global Instance outcome_bind : MBind outcome := λ A B f m,
  match m with
  | Return a => f a
  | Raise e => Raise e
  end.

(** Reading the global [name] in a module whose top level binds the
    names of [G]. *)
Definition load_global (G : gset string) (name : string) : outcome unit :=
  if decide (name ∈ G) then Return tt else Raise (NameError name).

(** *** Strings *)

(** [needle in hay] on two [str] values. *)
Fixpoint str_contains (needle hay : string) : bool :=
  String.prefix needle hay ||
  match hay with
  | EmptyString => false
  | String _ rest => str_contains needle rest
  end.

Definition ascii_lower (c : ascii) : ascii :=
  let n := Ascii.N_of_ascii c in
  if decide (65 ≤ n ≤ 90)%N then Ascii.ascii_of_N (n + 32) else c.

(** [s.lower()] *)
Fixpoint lower (s : string) : string :=
  match s with
  | EmptyString => EmptyString
  | String c rest => String (ascii_lower c) (lower rest)
  end.

(** *** Code points *)

(** A Python [str] as the sequence of its code points.  The code
    points [0xD800]..[0xDFFF] are the surrogates: a [str] may hold one
    on its own, and UTF-8 has no form for it. *)
Definition str : Type := list N.


Definition is_surrogate (c : N) : bool := ((0xD800 <=? c) && (c <=? 0xDFFF))%N.


(** The UTF-8 form of one code point. *)
Definition utf8_encode_char (c : N) : option (list ascii) :=
  (if c <? 0x80 then Some [ascii_of_N c]
   else if c <? 0x800 then
     Some [ascii_of_N (0xC0 + c / 64); ascii_of_N (0x80 + c mod 64)]
   else if is_surrogate c then None
   else if c <? 0x10000 then
     Some [ascii_of_N (0xE0 + c / 4096); ascii_of_N (0x80 + (c / 64) mod 64);
           ascii_of_N (0x80 + c mod 64)]
   else
     Some [ascii_of_N (0xF0 + c / 262144);
           ascii_of_N (0x80 + (c / 4096) mod 64);
           ascii_of_N (0x80 + (c / 64) mod 64); ascii_of_N (0x80 + c mod 64)])%N.

Definition hex_digit (n : N) : ascii :=
  ascii_of_N (if (n <? 10)%N then 48 + n else 87 + n)%N.

(** The escape [\uXXXX] under which the message of the codec shows a
    surrogate. *)
Definition escape (c : N) : string :=
  "\u" +:+
  String.string_of_list_ascii
    [hex_digit (c / 4096 mod 16); hex_digit (c / 256 mod 16);
     hex_digit (c / 16 mod 16); hex_digit (c mod 16)]%N.

(** [str(e)] of the [UnicodeEncodeError] for the surrogate [c] at
    [position], followed by [run] further surrogates. *)
Definition surrogate_message (c position : N) (run : nat) : string :=
  match run with
  | O =>
      "'utf-8' codec can't encode character '" +:+ escape c +:+
      "' in position " +:+ pretty position +:+ ": surrogates not allowed"
  | S _ =>
      "'utf-8' codec can't encode characters in position " +:+
      pretty position +:+ "-" +:+ pretty (position + N.of_nat run)%N +:+
      ": surrogates not allowed"
  end.

(** The surrogates that [s] starts with. *)
Fixpoint surrogates_ahead (s : str) : nat :=
  match s with
  | c :: rest => if is_surrogate c then S (surrogates_ahead rest) else O
  | [] => O
  end.

(** [s.encode('utf-8')], which the sqlite3 module applies to a [str]
    parameter; [position] counts the code points already encoded. *)
Fixpoint utf8_encode_from (position : N) (s : str) : outcome (list ascii) :=
  match s with
  | [] => Return []
  | c :: rest =>
      match utf8_encode_char c with
      | Some bytes =>
          tail ← utf8_encode_from (position + 1) rest; Return (bytes ++ tail)
      | None =>
          Raise (UnicodeEncodeError
            (surrogate_message c position (surrogates_ahead rest)))
      end
  end.

Definition utf8_encode (s : str) : outcome string :=
  bytes ← utf8_encode_from 0 s; Return (String.string_of_list_ascii bytes).



(** A [str] literal of the source, which holds ASCII only. *)
Definition str_literal (text : string) : str :=
  N_of_ascii <$> String.list_ascii_of_string text.

(** *** Values of a loaded YAML document *)

(** What [yaml.safe_load] builds: scalars, lists, and dicts, whose
    keys are taken to be [str] and are kept in insertion order. *)
#[warnings="-register-all"] Inductive value : Type :=
| VNone
| VBool (b : bool)
| VInt (n : Z)
| VFloat (x : QArith_base.Q)
| VStr (s : string)
| VList (l : list value)
| VDict (d : list (string * value)).

Fixpoint dict_get {A} (d : list (string * A)) (k : string) : option A :=
  match d with
  | [] => None
  | (k', v) :: rest => if decide (k' = k) then Some v else dict_get rest k
  end.

(** [d[k] = v] on a dict: an existing key keeps its place, a new one
    goes last. *)
Fixpoint dict_set {A} (d : list (string * A)) (k : string) (v : A)
    : list (string * A) :=
  match d with
  | [] => [(k, v)]
  | (k', v') :: rest =>
      if decide (k' = k) then (k, v) :: rest else (k', v') :: dict_set rest k v
  end.

Definition type_name (v : value) : string :=
  match v with
  | VNone => "NoneType"
  | VBool _ => "bool"
  | VInt _ => "int"
  | VFloat _ => "float"
  | VStr _ => "str"
  | VList _ => "list"
  | VDict _ => "dict"
  end.

Definition is_str (k : string) (v : value) : bool :=
  match v with
  | VStr s => bool_decide (s = k)
  | _ => false
  end.

(** [k in v] for a [str] k *)
Definition py_contains (k : string) (v : value) : outcome bool :=
  match v with
  | VDict d => Return (bool_decide (is_Some (dict_get d k)))
  | VStr s => Return (str_contains k s)
  | VList l => Return (existsb (is_str k) l)
  | _ => Raise (TypeError ("argument of type '" +:+ type_name v
                             +:+ "' is not iterable"))
  end.

(** [v[k]] for a [str] k *)
Definition py_getitem (v : value) (k : string) : outcome value :=
  match v with
  | VDict d =>
      match dict_get d k with
      | Some x => Return x
      | None => Raise (KeyError k)
      end
  | VStr _ => Raise (TypeError "string indices must be integers, not 'str'")
  | VList _ =>
      Raise (TypeError "list indices must be integers or slices, not str")
  | _ => Raise (TypeError ("'" +:+ type_name v
                             +:+ "' object is not subscriptable"))
  end.

(** [v[k] = x] for a [str] k; the result is the object [v] after the
    assignment. *)
Definition py_setitem (v : value) (k : string) (x : value) : outcome value :=
  match v with
  | VDict d => Return (VDict (dict_set d k x))
  | VList _ =>
      Raise (TypeError "list indices must be integers or slices, not str")
  | _ => Raise (TypeError ("'" +:+ type_name v
                             +:+ "' object does not support item assignment"))
  end.

(** A run of assignments [v[k1] = x1; v[k2] = x2; ...] on one object. *)
Fixpoint py_setitems (v : value) (kxs : list (string * value))
    : outcome value :=
  match kxs with
  | [] => Return v
  | (k, x) :: rest => v' ← py_setitem v k x; py_setitems v' rest
  end.

(** [v[k1][k2]...], when every step is a dict that has the key. *)
Fixpoint get_path (v : value) (path : list string) : option value :=
  match path with
  | [] => Some v
  | k :: rest =>
      match v with
      | VDict d =>
          match dict_get d k with
          | Some x => get_path x rest
          | None => None
          end
      | _ => None
      end
  end.

End Py.
Import Py.

(** ** [database.py] *)

Module Database.

(** One row of [query_history], with the five columns that
    [get_all_queries] selects. *)
Record QueryRecord : Type := {
  id : Z;
  timestamp : string;
  query : string;
  method : string;
  response : string
}.

(** The database file: the rows of [query_history] in insertion order
    and the counter that SQLite keeps in [sqlite_sequence] for an
    [AUTOINCREMENT] key (the largest rowid the table ever held, 0
    before the first insert). *)
Record store : Type := {
  query_history : list QueryRecord;
  sqlite_sequence : Z
}.

(** The largest rowid of SQLite, a signed 64-bit integer. *)
Definition MAX_ROWID : Z := 9223372036854775807.

(** [CREATE TABLE IF NOT EXISTS]: a fresh file gets the empty table,
    an existing one is left as it is. *)
Definition empty_store : store :=
  {| query_history := []; sqlite_sequence := 0 |}.

Definition init_db (file : option store) : store :=
  default empty_store file.

(** A function of [database.py]: it opens a connection on the current
    file, returns or raises, and leaves the file in a new state. *)
Definition db (A : Type) : Type := store → outcome (A * store).

Global Instance db_ret : MRet db := λ A a s, Return (a, s).
Global Instance db_bind : MBind db := λ A B f m s,
  match m s with
  | Return (a, s') => f a s'
  | Raise e => Raise e
  end.

(** *** The clock *)

(** What [datetime.now()] returns, up to the minute; years are those
    of [datetime], 1 to 9999. *)
Record datetime : Type := {
  year : nat; month : nat; day : nat; hour : nat; minute : nat
}.

Definition digit (n : nat) : ascii :=
  Ascii.ascii_of_nat (48 + n `mod` 10).

Definition pad2 (n : nat) : string :=
  String (digit (n `div` 10)) (String (digit n) "").

Definition pad4 (n : nat) : string :=
  String (digit (n `div` 1000)) (String (digit (n `div` 100)) (pad2 n)).

(** [now.strftime("%Y-%m-%d %H:%M")] *)
Definition strftime (now : datetime) : string :=
  pad4 (year now) +:+ "-" +:+ pad2 (month now) +:+ "-" +:+ pad2 (day now)
    +:+ " " +:+ pad2 (hour now) +:+ ":" +:+ pad2 (minute now).

(** *** Query history *)

Definition max_rowid (rows : list QueryRecord) : Z :=
  foldr (λ r m, Z.max (id r) m) 0%Z rows.

(** The rowid SQLite picks for an insert without an explicit id into
    an [AUTOINCREMENT] table: one more than the largest rowid that
    ever existed. *)
Definition next_rowid (s : store) : Z :=
  (Z.max (max_rowid (query_history s)) (sqlite_sequence s) + 1)%Z.

(** [save_query]: the [INSERT], the commit and [cursor.lastrowid], on
    the text [q], [m] and [r] that the statement was given.  When the
    rowid space is used up SQLite refuses the insert ([SQLITE_FULL])
    and the call raises. *)
Definition save_query (now : datetime) (q m r : string) : db Z := λ s,
  let new_id := next_rowid s in
  if decide (new_id ≤ MAX_ROWID)%Z then
    let row := {| id := new_id; timestamp := strftime now;
                  query := q; method := m; response := r |} in
    Return (new_id, {| query_history := query_history s ++ [row];
                       sqlite_sequence := new_id |})
  else Raise (OperationalError "database or disk is full").

(** [ORDER BY id DESC] *)
Definition id_desc (a b : QueryRecord) : Prop := (id b ≤ id a)%Z.

Global Instance id_desc_dec a b : Decision (id_desc a b) := Z_le_dec _ _.

Definition get_all_queries : db (list QueryRecord) := λ s,
  Return (merge_sort id_desc (query_history s), s).

(** The smallest integer that SQLite stores. *)
Definition MIN_ROWID : Z := -9223372036854775808.

(** A row as [SELECT *] returns it: the five columns above and
    [created_at]. *)
Record StoredRecord : Type := {
  listed : QueryRecord;
  created_at : string
}.

(** [get_query_by_id(query_id)] with an [int]: the sqlite3 module
    binds the parameter as a 64-bit integer and raises when it does
    not fit.  The column [created_at] is filled by SQLite at the
    insert ([DEFAULT CURRENT_TIMESTAMP]) and read by this function
    alone; [created] gives its content for the row of each id. *)
Definition get_query_by_id (created : Z → string) (query_id : Z)
    : db (option StoredRecord) := λ s,
  if decide (MIN_ROWID ≤ query_id ≤ MAX_ROWID)%Z then
    Return
      ((λ r, {| listed := r; created_at := created (id r) |}) <$>
         head (filter (λ r, id r = query_id) (query_history s)), s)
  else Raise (OverflowError "Python int too large to convert to SQLite INTEGER").


(** [DELETE FROM query_history]: every row goes, the counter of
    [sqlite_sequence] stays. *)
Definition clear_history : db unit := λ s,
  Return (tt, {| query_history := []; sqlite_sequence := sqlite_sequence s |}).

(** [SELECT COUNT( * )] *)
Definition get_query_count : db Z := λ s,
  Return (Z.of_nat (length (query_history s)), s).

(** *** Callers *)

(** The arguments of one [save_query] call, with the time at which it
    runs. *)
Record save_args : Type := {
  at_time : datetime; arg_query : string; arg_method : string;
  arg_response : string
}.

Definition save (c : save_args) : db Z :=
  save_query (at_time c) (arg_query c) (arg_method c) (arg_response c).

(** A caller that saves one record after the other and stops at the
    first call that raises; it returns the ids in call order. *)
Fixpoint save_all (calls : list save_args) : db (list Z) :=
  match calls with
  | [] => mret []
  | c :: rest => i ← save c; ids ← save_all rest; mret (i :: ids)
  end.

(** A caller that interleaves [save_query] and [clear_history], as the
    Ask, Re-run and Clear History buttons of [app.py] do. *)
Inductive call : Type :=
| SaveQuery (c : save_args)
| ClearHistory.

(** The ids handed out along a sequence of calls, oldest first, and
    the file it leaves.  A call that raises leaves the file as it
    was. *)
Fixpoint assigned_ids (calls : list call) (s : store) : list Z * store :=
  match calls with
  | [] => ([], s)
  | SaveQuery c :: rest =>
      match save c s with
      | Return (i, s') =>
          let '(ids, s'') := assigned_ids rest s' in (i :: ids, s'')
      | Raise _ => assigned_ids rest s
      end
  | ClearHistory :: rest =>
      match clear_history s with
      | Return (_, s') => assigned_ids rest s'
      | Raise _ => assigned_ids rest s
      end
  end.

(** The files that the functions of this module can produce from a
    fresh one. *)
Inductive reachable : store → Prop :=
| reachable_init : reachable (init_db None)
| reachable_save s c i s' :
    reachable s → save c s = Return (i, s') → reachable s'
| reachable_clear s u s' :
    reachable s → clear_history s = Return (u, s') → reachable s'.

(** *** Metadata *)

(** The [metadata] table of the same file: [key] is the primary key
    and a row holds [value] and [updated_at].  No function of the query
    history reads or writes it. *)
Abbreviation metadata_table := (gmap string (string * string)).

(** [set_metadata(key, value)], run when [datetime.now().isoformat()]
    is [now_iso]: [INSERT OR REPLACE]. *)
Definition set_metadata (now_iso key value : string) (t : metadata_table)
    : metadata_table :=
  <[key := (value, now_iso)]> t.

(** [get_metadata(key, default)]; [None] is Python's [None]. *)
Definition get_metadata (key : string) (default : option string)
    (t : metadata_table) : option string :=
  match t !! key with
  | Some row => Some row.1
  | None => default
  end.

(** *** Vocabulary of the properties *)

(** Insertion order is id order. *)
Definition id_asc (a b : QueryRecord) : Prop := (id a < id b)%Z.

(** Newest first, with no two equal ids. *)
Definition id_strictly_desc (a b : QueryRecord) : Prop := (id b < id a)%Z.

(** The invariant of the file: rows are in increasing id order, every
    id is positive and at most the counter, and the counter is a
    rowid. *)
Record store_ok (s : store) : Prop := {
  ok_sorted : StronglySorted id_asc (query_history s);
  ok_ids :
    Forall (λ r, 1 ≤ id r ≤ sqlite_sequence s)%Z (query_history s);
  ok_seq : (0 ≤ sqlite_sequence s ≤ MAX_ROWID)%Z
}.

End Database.

(** ** [utils.py] *)

Module Utils.

(** The names that the top level of [utils.py] binds: its five imports
    ([os], [sys], [shutil], [requests], [pandas as pd]), its three
    constants and its functions.  The module has no [import] of
    [subprocess] or of [yaml]. *)
Definition globals : gset string :=
  list_to_set
    ["os"; "sys"; "shutil"; "requests"; "pd";
     "RAG_DIR"; "INPUT_DIR"; "GRAPHRAG_CMD";
     "init_graphrag"; "check_ollama_status"; "update_settings";
     "run_indexing"; "run_query"; "get_latest_output_dir";
     "load_parquet_files"; "save_uploaded_file"; "clear_project"].

Definition RAG_DIR : string := "rag_project".

(** [os.path.join] on a POSIX system, for two components. *)
Definition ends_with_slash (a : string) : bool :=
  match last (String.list_ascii_of_string a) with
  | Some c => bool_decide (c = "/"%char)
  | None => false
  end.

Definition path_join (a b : string) : string :=
  if String.prefix "/" b then b
  else if bool_decide (a = "") || ends_with_slash a then a +:+ b
  else a +:+ "/" +:+ b.

Definition INPUT_DIR : string := path_join RAG_DIR "input".

(** *** Querying *)

(** What happens to a child process that is given unlimited time: it
    cannot be started, or it runs for some time and exits. *)
Inductive child : Type :=
| NotStarted (msg : string)
| Ran (duration : Z) (code : Z) (out err : string).

Record CompletedProcess : Type := {
  returncode : Z; stdout : string; stderr : string
}.

(** [subprocess.run(argv, capture_output=True, text=True,
    timeout=timeout)], where [spawn] is the operating system. *)
Definition subprocess_run (spawn : list string → child) (argv : list string)
    (timeout : Z) : outcome CompletedProcess :=
  match spawn argv with
  | NotStarted msg => Raise (OSError msg)
  | Ran duration code out err =>
      if decide (timeout < duration)%Z then Raise TimeoutExpired
      else Return {| returncode := code; stdout := out; stderr := err |}
  end.

Definition timeout_message : string :=
  "Query timed out. Local LLMs can be slow - try a simpler question or wait longer.".

(** [run_query(query, method)] in a module whose globals are [G] and
    whose [GRAPHRAG_CMD] is [cmd].  The [except] clauses are tried in
    order and the class named by a clause is looked up when the clause
    is tried, outside the [try] body. *)
Definition run_query (G : gset string) (cmd : string)
    (spawn : list string → child) (query method : string) : outcome string :=
  let body : outcome string :=
    load_global G "os";;
    load_global G "subprocess";;
    load_global G "GRAPHRAG_CMD";;
    load_global G "RAG_DIR";;
    result ← subprocess_run spawn
      [cmd; "query"; "--root"; RAG_DIR; "--method"; method; "--query"; query]
      600;
    if decide (returncode result ≠ 0%Z) then
      Return ("Error: " +:+ stderr result)
    else Return (stdout result) in
  match body with
  | Return answer => Return answer
  | Raise e =>
      load_global G "subprocess";;
      match e with
      | TimeoutExpired => Return timeout_message
      | _ => Return ("Exception: " +:+ exn_str e)
      end
  end.

(** *** Settings *)

Definition ollama_api_base : string := "http://localhost:11434/v1".

(** The assignments to [chat], in source order. *)
Definition chat_overrides (model_name : string) : list (string * value) :=
  [("model_provider", VStr "openai");
   ("auth_type", VStr "api_key");
   ("api_key", VStr "ollama");
   ("api_base", VStr ollama_api_base);
   ("model", VStr model_name);
   ("concurrent_requests", VInt 1);
   ("max_retries", VInt 10);
   ("request_timeout", VFloat (QArith_base.Qmake 3600 1))].

(** The assignments to [embed], in source order. *)
Definition embed_overrides : list (string * value) :=
  [("model_provider", VStr "openai");
   ("auth_type", VStr "api_key");
   ("api_key", VStr "ollama");
   ("api_base", VStr ollama_api_base);
   ("model", VStr "nomic-embed-text");
   ("request_timeout", VFloat (QArith_base.Qmake 600 1))].

(** [if outer in params and inner in params[outer]: sub =
    params[outer][inner]; sub[k] = x; ...].  [sub] is the object stored
    in [params], so the assignments show in [params]. *)
Definition patch_nested (outer inner : string) (kxs : list (string * value))
    (params : value) : outcome value :=
  has_outer ← py_contains outer params;
  if (has_outer : bool) then
    mid ← py_getitem params outer;
    has_inner ← py_contains inner mid;
    if (has_inner : bool) then
      sub ← py_getitem mid inner;
      sub' ← py_setitems sub kxs;
      mid' ← py_setitem mid inner sub';
      py_setitem params outer mid'
    else Return params
  else Return params.

(** [if block in params: params[block][k] = x; ...] *)
Definition patch_block (block : string) (kxs : list (string * value))
    (params : value) : outcome value :=
  has_block ← py_contains block params;
  if (has_block : bool) then
    sub ← py_getitem params block;
    sub' ← py_setitems sub kxs;
    py_setitem params block sub'
  else Return params.

(** The overwrites of [update_settings] on the loaded document.  The
    document is a tree here: each assignment changes the mapping it
    names under the one path that leads to it.  A file written with
    YAML anchors and aliases loads with mappings shared between paths,
    and is not described by this function. *)
Definition apply_overrides (model_name : string) (params : value)
    : outcome value :=
  params ← patch_nested "models" "default_chat_model"
             (chat_overrides model_name) params;
  params ← patch_nested "models" "default_embedding_model"
             embed_overrides params;
  params ← patch_block "extract_graph" [("max_gleanings", VInt 0)] params;
  patch_block "chunks" [("size", VInt 2000); ("overlap", VInt 200)] params.

(** A top-level block that [patch_block] can handle: absent, or a
    dict. *)
Definition block_ok (d : list (string * value)) (block : string) : Prop :=
  match dict_get d block with
  | Some (VDict _) | None => True
  | Some _ => False
  end.

Section update_settings.

(** PyYAML: [safe_load] on the text of a file and [dump]. *)
Variable safe_load : string → outcome value.
Variable dump : value → string.

(** [update_settings(model_name)] in a module whose globals are [G].
    The state is [rag_project/settings.yaml]: absent, or its text.  The
    result is the returned pair and the file afterwards. *)
Definition update_settings (G : gset string) (model_name : string)
    (settings : option string) : (bool * string) * option string :=
  match settings with
  | None => ((false, "settings.yaml not found. Run Init first."), settings)
  | Some text =>
      let body : outcome string :=
        load_global G "yaml";;
        params ← safe_load text;
        params ← apply_overrides model_name params;
        load_global G "yaml";;
        Return (dump params) in
      match body with
      | Return text' =>
          ((true, "Updated settings.yaml for Ollama."), Some text')
      | Raise e =>
          ((false, "Failed to update settings: " +:+ exn_str e), settings)
      end
  end.

(** A call [update_settings( *args )] with positional arguments: the
    function has one parameter, [model_name], with a default. *)
Definition call_update_settings (G : gset string) (args : list string)
    (settings : option string) : outcome ((bool * string) * option string) :=
  match args with
  | [] => Return (update_settings G "gpt-oss:20b-cloud" settings)
  | [model_name] => Return (update_settings G model_name settings)
  | _ =>
      Raise (TypeError
        ("update_settings() takes from 0 to 1 positional arguments but "
           +:+ pretty (length args) +:+ " were given"))
  end.

End update_settings.

(** *** Data loading *)

(** A [pandas.DataFrame]: column labels and rows. *)
Record DataFrame : Type := {
  columns : list string;
  records : list (list string)
}.

(** [pd.DataFrame()] *)
Definition empty_frame : DataFrame := {| columns := []; records := [] |}.

(** [df.empty] *)
Definition frame_empty (df : DataFrame) : bool :=
  bool_decide (columns df = []) || bool_decide (records df = []).

(** The part of the operating system and of pandas that the loader
    calls. *)
Record filesystem : Type := {
  path_exists : string → bool;
  path_isdir : string → bool;
  listdir : string → outcome (list string);
  getmtime : string → Z;
  read_parquet : string → outcome DataFrame
}.

(** [max(x :: xs, key=key)]: the first item whose key is largest. *)
Fixpoint max_by {A} (key : A → Z) (x : A) (xs : list A) : A :=
  match xs with
  | [] => x
  | y :: ys => max_by key (if decide (key x < key y)%Z then y else x) ys
  end.

Definition get_latest_output_dir (fs : filesystem) : outcome (option string) :=
  let output_base := path_join RAG_DIR "output" in
  if negb (path_exists fs output_base) then Return None
  else if path_exists fs (path_join output_base "entities.parquet") then
    Return (Some output_base)
  else
    names ← listdir fs output_base;
    let subdirs :=
      filter (λ p, path_isdir fs p = true) (path_join output_base <$> names) in
    match subdirs with
    | [] => Return None
    | d :: ds =>
        let latest_subdir := max_by (getmtime fs) d ds in
        let artifacts_path := path_join latest_subdir "artifacts" in
        Return (Some (if path_exists fs artifacts_path then artifacts_path
                      else latest_subdir))
    end.

(** File names to try for each dataset, old naming after new. *)
Definition file_patterns : list (string * list string) :=
  [("entities", ["entities.parquet"; "create_final_entities.parquet"]);
   ("relationships",
     ["relationships.parquet"; "create_final_relationships.parquet"]);
   ("reports",
     ["community_reports.parquet"; "create_final_community_reports.parquet"])].

(** The inner loop: the first pattern whose file exists and reads ends
    the loop with [data[key]] set; a file that does not read is passed
    over. *)
Fixpoint load_first (fs : filesystem) (artifacts_dir key : string)
    (patterns : list string) (data : gmap string DataFrame)
    : gmap string DataFrame :=
  match patterns with
  | [] => data
  | pattern :: rest =>
      let path := path_join artifacts_dir pattern in
      if path_exists fs path then
        match read_parquet fs path with
        | Return df => <[key := df]> data
        | Raise _ => load_first fs artifacts_dir key rest data
        end
      else load_first fs artifacts_dir key rest data
  end.

(** One round of the outer loop. *)
Definition load_key (fs : filesystem) (artifacts_dir : string)
    (data : gmap string DataFrame) (entry : string * list string)
    : gmap string DataFrame :=
  let '(key, patterns) := entry in
  let data := load_first fs artifacts_dir key patterns data in
  if decide (is_Some (data !! key)) then data
  else <[key := empty_frame]> data.

(** A directory that holds one relationships file, which reads as
    [df], and no entities or community-reports file. *)
Definition only_relationships (fs : filesystem) (dir : string)
    (df : DataFrame) : Prop :=
  path_exists fs (path_join dir "entities.parquet") = false ∧
  path_exists fs (path_join dir "create_final_entities.parquet") = false ∧
  path_exists fs (path_join dir "community_reports.parquet") = false ∧
  path_exists fs (path_join dir "create_final_community_reports.parquet")
    = false ∧
  let new_name := path_join dir "relationships.parquet" in
  let old_name := path_join dir "create_final_relationships.parquet" in
  (path_exists fs new_name = true ∧ path_exists fs old_name = false ∧
   read_parquet fs new_name = Return df) ∨
  (path_exists fs new_name = false ∧ path_exists fs old_name = true ∧
   read_parquet fs old_name = Return df).

Definition load_parquet_files (fs : filesystem)
    : outcome (option (gmap string DataFrame)) :=
  artifacts_dir ← get_latest_output_dir fs;
  match artifacts_dir with
  | None | Some "" => Return None
  | Some dir => Return (Some (foldl (load_key fs dir) ∅ file_patterns))
  end.

(** The dataset that the loader keeps for one file name: what the
    file reads as, if it exists and reads. *)
Definition readable (fs : filesystem) (path : string) : option DataFrame :=
  if path_exists fs path then
    match read_parquet fs path with
    | Return df => Some df
    | Raise _ => None
    end
  else None.

(** *** Locating the executable *)

(** [os.path.dirname] on a POSIX system: the text up to the last
    slash, without that slash unless nothing but slashes is left. *)
Fixpoint through_last_slash (l : list ascii) : list ascii :=
  match l with
  | [] => []
  | c :: rest =>
      if existsb (λ x, bool_decide (x = "/"%char)) rest then
        c :: through_last_slash rest
      else if bool_decide (c = "/"%char) then [c]
      else []
  end.

Fixpoint strip_leading_slashes (l : list ascii) : list ascii :=
  match l with
  | c :: rest =>
      if bool_decide (c = "/"%char) then strip_leading_slashes rest else l
  | [] => []
  end.

Definition dirname (p : string) : string :=
  let head := through_last_slash (String.list_ascii_of_string p) in
  String.string_of_list_ascii
    (if forallb (λ x, bool_decide (x = "/"%char)) head then head
     else reverse (strip_leading_slashes (reverse head))).

(** The module-level [GRAPHRAG_CMD]: what [shutil.which("graphrag")]
    found, or else [graphrag] next to the interpreter. *)
Definition detect_graphrag_cmd (which : option string) (executable : string)
    : string :=
  let fallback := path_join (dirname executable) "graphrag" in
  match which with
  | Some found => if bool_decide (found = "") then fallback else found
  | None => fallback
  end.

(** *** Initialization *)

Definition not_found_message : string :=
  "GraphRAG executable not found. Please install: pip install graphrag".

(** [init_graphrag()] in a module whose globals are [G] and whose
    [GRAPHRAG_CMD] is [cmd].  The state is whether [rag_project]
    exists.  [describe] is the text of the [CalledProcessError] that
    [subprocess.run(..., check=True)] raises on a non-zero exit. *)
Definition init_graphrag (G : gset string) (cmd : string)
    (spawn : list string → child) (describe : list string → Z → string)
    (rag_dir_exists : bool) : outcome ((bool * string) * bool) :=
  load_global G "os";;
  load_global G "RAG_DIR";;
  (if rag_dir_exists then Return tt
   else load_global G "os";; load_global G "RAG_DIR");;
  load_global G "GRAPHRAG_CMD";;
  if bool_decide (cmd = "") then Return ((false, not_found_message), true)
  else
    let argv := [cmd; "init"; "--root"; RAG_DIR] in
    let body : outcome (option string) :=
      load_global G "subprocess";;
      load_global G "GRAPHRAG_CMD";;
      load_global G "RAG_DIR";;
      match spawn argv with
      | NotStarted msg => Raise (OSError msg)
      | Ran _ code _ _ =>
          Return (if decide (code = 0%Z) then None
                  else Some (describe argv code))
      end in
    match body with
    | Return None => Return ((true, "Initialized GraphRAG project."), true)
    | Return (Some text) => Return ((false, "Failed to init: " +:+ text), true)
    | Raise e => Return ((false, "Failed to init: " +:+ exn_str e), true)
    end.

(** *** Indexing *)

(** A started child whose output is read line by line: the lines it
    will print and the code it will exit with. *)
Record process : Type := {
  stdout_lines : list string;
  exit_code : Z
}.

(** [run_indexing()]: the started process, or [None]. *)
Definition run_indexing (G : gset string) (cmd : string)
    (popen : list string → outcome process) : option process :=
  let body : outcome process :=
    load_global G "os";;
    load_global G "subprocess";;
    load_global G "GRAPHRAG_CMD";;
    load_global G "RAG_DIR";;
    load_global G "subprocess";;
    load_global G "subprocess";;
    popen [cmd; "index"; "--root"; RAG_DIR; "--verbose"] in
  match body with
  | Return started => Some started
  | Raise _ => None
  end.

(** *** Clearing the project *)

(** [p] is [dir] or lies under it. *)
Definition under (dir p : string) : bool :=
  bool_decide (p = dir) || String.prefix (dir +:+ "/") p.

(** The file system once the tree at [dir] is gone.  Paths outside
    the tree are left as they were; a link from outside into the tree
    is not described. *)
Definition without_tree (fs : filesystem) (dir : string) : filesystem :=
  {| path_exists p := path_exists fs p && negb (under dir p);
     path_isdir p := path_isdir fs p && negb (under dir p);
     listdir p :=
       if under dir p then Raise (OSError "No such file or directory")
       else names ← listdir fs p;
            Return (filter (λ n, under dir (path_join p n) = false) names);
     getmtime := getmtime fs;
     read_parquet p :=
       if under dir p then Raise (OSError "No such file or directory")
       else read_parquet fs p |}.

(** [shutil.rmtree(dir)] on an existing path: a symbolic link is
    refused, whatever it points to, and so is a path that is not a
    directory.  [islink] is [os.path.islink]; [path_exists] and
    [path_isdir] follow links, as [os.path.exists] and
    [os.path.isdir] do. *)
Definition rmtree (islink : string → bool) (fs : filesystem) (dir : string)
    : outcome filesystem :=
  if islink dir then Raise (OSError "Cannot call rmtree on a symbolic link")
  else if path_isdir fs dir then Return (without_tree fs dir)
  else Raise (OSError ("[Errno 20] Not a directory: '" +:+ dir +:+ "'")).

Definition clear_project (islink : string → bool) (fs : filesystem)
    : outcome ((bool * string) * filesystem) :=
  let cache_dir := path_join RAG_DIR "cache" in
  let output_dir := path_join RAG_DIR "output" in
  fs ← (if path_exists fs cache_dir then rmtree islink fs cache_dir
        else Return fs);
  fs ← (if path_exists fs output_dir then rmtree islink fs output_dir
        else Return fs);
  Return ((true, "Cleared cache and output."), fs).

(** *** File management *)

(** [s.endswith(suffix)] *)
Definition str_endswith (suffix s : string) : bool :=
  bool_decide (String.list_ascii_of_string suffix
                 `suffix_of` String.list_ascii_of_string s).

(** [l.rfind(c)]: the index of the last [c], or -1. *)
Fixpoint rfind (c : ascii) (l : list ascii) : Z :=
  match l with
  | [] => -1
  | x :: rest =>
      let r := rfind c rest in
      if decide (0 ≤ r)%Z then (r + 1)%Z
      else if bool_decide (x = c) then 0%Z else (-1)%Z
  end.

(** [os.path.splitext] on a POSIX system: the split is at the last
    dot, when that dot comes after the last slash and something other
    than dots stands between the two. *)
Definition splitext (p : string) : string * string :=
  let l := String.list_ascii_of_string p in
  let sep_index := rfind "/" l in
  let dot_index := rfind "." l in
  if decide (sep_index < dot_index)%Z then
    let filename_index := Z.to_nat (sep_index + 1) in
    let up_to_dot := Z.to_nat dot_index in
    if existsb (λ x, negb (bool_decide (x = "."%char)))
         (take (up_to_dot - filename_index) (drop filename_index l)) then
      (String.string_of_list_ascii (take up_to_dot l),
       String.string_of_list_ascii (drop up_to_dot l))
    else (p, "")
  else (p, "").

(** [s] has a character that is not a dot. *)
Definition has_non_dot (s : string) : bool :=
  existsb (λ x, negb (bool_decide (x = "."%char)))
    (String.list_ascii_of_string s).

(** The part of the disk that uploads touch: the directories and the
    content of the files. *)
Record disk : Type := {
  dirs : gset string;
  files : gmap string string
}.

(** [os.path.exists] *)
Definition disk_exists (d : disk) (p : string) : bool :=
  bool_decide (p ∈ dirs d) || bool_decide (is_Some (files d !! p)).

(** [os.makedirs(INPUT_DIR)]: [rag_project] and [rag_project/input]. *)
Definition make_input_dir (d : disk) : outcome disk :=
  if bool_decide (is_Some (files d !! RAG_DIR)) then
    Raise (OSError ("[Errno 20] Not a directory: '" +:+ INPUT_DIR +:+ "'"))
  else Return {| dirs := {[RAG_DIR; INPUT_DIR]} ∪ dirs d; files := files d |}.

(** [os.path.basename]: what follows the last slash. *)
Definition basename (p : string) : string :=
  let l := String.list_ascii_of_string p in
  String.string_of_list_ascii (drop (Z.to_nat (rfind "/" l + 1)) l).

(** The longest name of a directory entry, in bytes, on the file
    systems of Linux. *)
Definition NAME_MAX : nat := 255.

(** [with open(path, "w") as f: f.write(content)], in text or in
    binary mode.  A path with a NUL byte is refused before the file
    system is asked; the directory of [path] must be there; the last
    component must fit a directory entry; and [path] must not name a
    directory, which it does when it ends in a slash, when its last
    component is [.] or [..], or when a directory has that name. *)
Definition write_file (d : disk) (path content : string) : outcome disk :=
  if bool_decide (Ascii.zero ∈ String.list_ascii_of_string path) then
    Raise (ValueError "embedded null byte")
  else if bool_decide (path = "")
          || negb (bool_decide (dirname path = "")
                   || bool_decide (dirname path ∈ dirs d))
  then
    Raise (OSError ("[Errno 2] No such file or directory: '" +:+ path +:+ "'"))
  else if bool_decide (NAME_MAX < String.length (basename path)) then
    Raise (OSError ("[Errno 36] File name too long: '" +:+ path +:+ "'"))
  else if ends_with_slash path
          || bool_decide (basename path ∈ ["."; ".."])
          || bool_decide (path ∈ dirs d)
  then Raise (OSError ("[Errno 21] Is a directory: '" +:+ path +:+ "'"))
  else Return {| dirs := dirs d; files := <[path := content]> (files d) |}.

(** What the page hands over for one upload. *)
Record UploadedFile : Type := {
  name : string;
  buffer : string
}.

(** [page.extract_text() or ""] *)
Definition page_text (page : option string) : string := default "" page.

(** [save_uploaded_file(uploaded_file)].  [extract] is pdfplumber: the
    text of each page of a PDF, [None] for a page without text, or the
    exception it raises. *)
Definition save_uploaded_file
    (extract : string → outcome (list (option string)))
    (uploaded_file : UploadedFile) (d : disk)
    : outcome ((bool * string) * disk) :=
  d ← (if disk_exists d INPUT_DIR then Return d else make_input_dir d);
  let file_path := path_join INPUT_DIR (name uploaded_file) in
  if str_endswith ".pdf" (lower (name uploaded_file)) then
    let body : outcome (string * disk) :=
      pages ← extract (buffer uploaded_file);
      let text := String.concat "" (page_text <$> pages) in
      let txt_filename := (splitext (name uploaded_file)).1 +:+ ".txt" in
      let txt_path := path_join INPUT_DIR txt_filename in
      d ← write_file d txt_path text;
      Return (txt_filename, d) in
    match body with
    | Return (txt_filename, d) =>
        Return ((true, "Saved & Converted PDF to " +:+ txt_filename), d)
    | Raise e => Return ((false, exn_str e), d)
    end
  else
    d ← write_file d file_path (buffer uploaded_file);
    Return ((true, "Saved " +:+ name uploaded_file), d).

End Utils.

(** ** [app.py] *)

Module App.

(** The [if]/[elif] chain of the Start Indexing handler: the milestone
    and the label that one line of log sets, if any. *)
Definition classify (line : string) : option (nat * string) :=
  let line_lower := lower line in
  if str_contains "load_input" line_lower then
    Some (10, "Loading documents...")
  else if str_contains "text_units" line_lower then
    Some (20, "Creating text units...")
  else if str_contains "extract_graph" line_lower
          && str_contains "starting" line_lower then
    Some (30, "Extracting entities (slow)...")
  else if str_contains "extract graph progress" line_lower then
    Some (50, "Extracting graph...")
  else if str_contains "finalize_graph" line_lower then
    Some (60, "Finalizing graph...")
  else if str_contains "communities" line_lower then
    Some (70, "Creating communities...")
  else if str_contains "community_reports" line_lower then
    Some (80, "Generating reports...")
  else if str_contains "embeddings" line_lower then
    Some (90, "Generating embeddings...")
  else if str_contains "pipeline complete" line_lower then
    Some (100, "Complete!")
  else None.

(** The chain read as a table in priority order: a test on the
    lowered line, the milestone and the label. *)
Definition table : list ((string → bool) * nat * string) :=
  [(str_contains "load_input", 10, "Loading documents...");
   (str_contains "text_units", 20, "Creating text units...");
   (λ l, str_contains "extract_graph" l && str_contains "starting" l,
     30, "Extracting entities (slow)...");
   (str_contains "extract graph progress", 50, "Extracting graph...");
   (str_contains "finalize_graph", 60, "Finalizing graph...");
   (str_contains "communities", 70, "Creating communities...");
   (str_contains "community_reports", 80, "Generating reports...");
   (str_contains "embeddings", 90, "Generating embeddings...");
   (str_contains "pipeline complete", 100, "Complete!")].

(** The first row of the table whose test holds. *)
Definition first_match (line_lower : string) : option (nat * string) :=
  (λ row, (row.1.2, row.2)) <$> List.find (λ row, row.1.1 line_lower) table.

(** No row among the first [n] matches. *)
Definition unmatched_before (n : nat) (line_lower : string) : Prop :=
  Forall (λ row : (string → bool) * nat * string, row.1.1 line_lower = false)
    (take n table).

(** What the page shows during indexing: the accumulated log and the
    progress bar. *)
Record session : Type := {
  logs : string;
  percent : nat;
  label : string
}.

(** [progress_bar = st.progress(0, text="Starting...")] *)
Definition start (logs : string) : session :=
  {| logs := logs; percent := 0; label := "Starting..." |}.

(** The body of [for line in iter(process.stdout.readline, '')]. *)
Definition on_line (st : session) (line : string) : session :=
  let logs := logs st +:+ line in
  match classify line with
  | Some (p, text) => {| logs := logs; percent := p; label := text |}
  | None => {| logs := logs; percent := percent st; label := label st |}
  end.

(** The percentage on the bar after each line of the stream. *)
Fixpoint percentages (st : session) (lines : list string) : list nat :=
  match lines with
  | [] => []
  | line :: rest =>
      let st' := on_line st line in percent st' :: percentages st' rest
  end.

(** The milestones of the lines that set the bar, in stream order. *)
Definition milestones (lines : list string) : list nat :=
  omap (λ line, fst <$> classify line) lines.

(** *** The Start Indexing button *)

Inductive indexing_result : Type :=
| IndexingDone
| IndexingFailed (code : Z)
| IndexingNotStarted.

(** The whole handler: start the child, read its lines to the end,
    collect the exit code.  The result is the page state and the
    message shown under the bar. *)
Definition start_indexing (G : gset string) (cmd : string)
    (popen : list string → outcome Utils.process) (logs : string)
    : session * indexing_result :=
  let st := start logs in
  match Utils.run_indexing G cmd popen with
  | Some process =>
      let st := foldl on_line st (Utils.stdout_lines process) in
      if decide (Utils.exit_code process = 0%Z) then
        ({| logs := App.logs st; percent := 100;
            label := "✅ Indexing Complete!" |}, IndexingDone)
      else (st, IndexingFailed (Utils.exit_code process))
  | None => (st, IndexingNotStarted)
  end.

(** *** The Ask and Re-run buttons *)

(** A call into [utils] from a handler that also uses the store. *)
Definition db_lift {A} (o : outcome A) : Database.db A := λ s,
  match o with
  | Return a => Return (a, s)
  | Raise e => Raise e
  end.

Inductive shown : Type :=
| Warning (text : string)
| Answer (text : string).

Definition ask_button (G : gset string) (cmd : string)
    (spawn : list string → Utils.child) (now : Database.datetime)
    (query method : string) : Database.db shown :=
  if bool_decide (query = "") then mret (Warning "Please enter a question.")
  else
    result ← db_lift (Utils.run_query G cmd spawn query method);
    Database.save_query now query method result;;
    mret (Answer result).

(** The Re-run button under one item of the history. *)
Definition rerun_button (G : gset string) (cmd : string)
    (spawn : list string → Utils.child) (now : Database.datetime)
    (item : Database.QueryRecord) : Database.db unit :=
  result ← db_lift (Utils.run_query G cmd spawn (Database.query item)
                      (Database.method item));
  Database.save_query now (Database.query item) (Database.method item) result;;
  mret tt.

Section update_settings_button.

Variable safe_load : string → outcome value.
Variable dump : value → string.

(** The Update Settings button:
    [utils.update_settings(model_name, api_base, api_key)]. *)
Definition update_settings_button (model_name api_base api_key : string)
    (settings : option string) : outcome ((bool * string) * option string) :=
  Utils.call_update_settings safe_load dump Utils.globals
    [model_name; api_base; api_key] settings.

End update_settings_button.

End App.

(** ** Sample inputs *)

Module Samples.
Import Database.

Definition morning : datetime :=
  {| year := 2025; month := 3; day := 14; hour := 9; minute := 5 |}.

Definition ask (q m r : string) : save_args :=
  {| at_time := morning; arg_query := q; arg_method := m; arg_response := r |}.

(** A [created_at] column: [CURRENT_TIMESTAMP] is UTC, to the second. *)
Definition inserted_at (i : Z) : string :=
  "2025-03-14 03:35:" +:+ pad2 (Z.to_nat i).

Definition three_saves : list save_args :=
  [ask "What is GraphRAG?" "local" "A retrieval pipeline.";
   ask "Summarise the corpus" "global" "Error: no index";
   ask "" "hybrid" ""].

(** Two saves, a clear, and a third save. *)
Definition save_clear_save : list call :=
  [SaveQuery (ask "Q1" "local" "A1"); SaveQuery (ask "Q2" "global" "A2");
   ClearHistory; SaveQuery (ask "Q3" "local" "A3")].

(** The file after one save, after two, and after a clear. *)
Definition one_row_store : store :=
  {| query_history :=
       [{| id := 1; timestamp := "2025-03-14 09:05";
           query := "Q1"; method := "local"; response := "A1" |}];
     sqlite_sequence := 1 |}.

Definition two_row_store : store :=
  {| query_history :=
       [{| id := 1; timestamp := "2025-03-14 09:05";
           query := "Q1"; method := "local"; response := "A1" |};
        {| id := 2; timestamp := "2025-03-14 09:05";
           query := "Q2"; method := "global"; response := "A2" |}];
     sqlite_sequence := 2 |}.

Definition cleared_store : store :=
  {| query_history := []; sqlite_sequence := 2 |}.

(** A [settings.yaml] as [graphrag init] writes it, loaded. *)
Definition settings : value :=
  VDict
    [("models",
       VDict
         [("default_chat_model",
            VDict [("type", VStr "openai_chat");
                   ("api_base", VStr "https://api.openai.com/v1");
                   ("api_key", VStr "${GRAPHRAG_API_KEY}");
                   ("model", VStr "gpt-4-turbo-preview")]);
          ("default_embedding_model",
            VDict [("type", VStr "openai_embedding");
                   ("api_key", VStr "${GRAPHRAG_API_KEY}");
                   ("model", VStr "text-embedding-3-small")])]);
     ("chunks", VDict [("size", VInt 1200); ("overlap", VInt 100)]);
     ("extract_graph", VDict [("max_gleanings", VInt 1)]);
     ("input", VDict [("file_type", VStr "text")])].

(** An output root with one timestamped run whose [artifacts]
    directory holds [relationships.parquet] and nothing else. *)
Definition relationships : Utils.DataFrame :=
  {| Utils.columns := ["source"; "target"; "weight"];
     Utils.records := [["IIM"; "WAT"; "1.0"]; ["WAT"; "PI"; "2.0"]] |}.

Definition run_dirs : list string :=
  ["rag_project"; "rag_project/output"; "rag_project/output/20240101-120000";
   "rag_project/output/20240101-120000/artifacts"].

Definition run_file : string :=
  "rag_project/output/20240101-120000/artifacts/relationships.parquet".

Definition run_fs : Utils.filesystem :=
  {| Utils.path_exists p := bool_decide (p ∈ run_file :: run_dirs);
     Utils.path_isdir p := bool_decide (p ∈ run_dirs);
     Utils.listdir p :=
       if bool_decide (p = "rag_project/output") then
         Return ["20240101-120000"]
       else Raise (OSError "not listed");
     Utils.getmtime p := 1704110400%Z;
     Utils.read_parquet p :=
       if bool_decide (p = run_file) then Return relationships
       else Raise (OSError "No such file or directory") |}.

(** An output root that itself holds [relationships.parquet] and
    nothing else. *)
Definition flat_fs : Utils.filesystem :=
  {| Utils.path_exists p :=
       bool_decide (p ∈ ["rag_project"; "rag_project/output";
                         "rag_project/output/relationships.parquet"]);
     Utils.path_isdir p :=
       bool_decide (p ∈ ["rag_project"; "rag_project/output"]);
     Utils.listdir p :=
       if bool_decide (p = "rag_project/output") then
         Return ["relationships.parquet"]
       else Raise (OSError "not listed");
     Utils.getmtime p := 1704110400%Z;
     Utils.read_parquet p :=
       if bool_decide (p = "rag_project/output/relationships.parquet") then
         Return relationships
       else Raise (OSError "No such file or directory") |}.

(** Four child processes: one that answers in time, one that fails,
    one that runs for eleven minutes, one that cannot be started. *)
Definition answers : list string → Utils.child :=
  λ _, Utils.Ran 42 0 "GraphRAG builds a knowledge graph." "".

Definition fails : list string → Utils.child :=
  λ _, Utils.Ran 3 1 "" "No index found".

Definition hangs : list string → Utils.child :=
  λ _, Utils.Ran 660 0 "too late" "".

Definition missing : list string → Utils.child :=
  λ _, Utils.NotStarted "[Errno 2] No such file or directory: 'graphrag'".

(** The globals of [utils.py] with [subprocess] added. *)
Definition globals_with_subprocess : gset string :=
  {["subprocess"]} ∪ Utils.globals.

(** Two runs under the output root, the second one newer and without
    an [artifacts] directory; its entities file does not read and the
    old name of its relationships file does. *)
Definition two_runs_fs : Utils.filesystem :=
  {| Utils.path_exists p :=
       bool_decide (p ∈ ["rag_project"; "rag_project/output";
                         "rag_project/output/run1";
                         "rag_project/output/run1/artifacts";
                         "rag_project/output/run2";
                         "rag_project/output/run2/entities.parquet";
                         "rag_project/output/run2/create_final_relationships.parquet";
                         "rag_project/output/notes.txt"]);
     Utils.path_isdir p :=
       bool_decide (p ∈ ["rag_project"; "rag_project/output";
                         "rag_project/output/run1";
                         "rag_project/output/run1/artifacts";
                         "rag_project/output/run2"]);
     Utils.listdir p :=
       if bool_decide (p = "rag_project/output") then
         Return ["run1"; "notes.txt"; "run2"]
       else Raise (OSError "not listed");
     Utils.getmtime p :=
       if bool_decide (p = "rag_project/output/run2") then 1704200000%Z
       else 1704110400%Z;
     Utils.read_parquet p :=
       if bool_decide
            (p = "rag_project/output/run2/create_final_relationships.parquet")
       then Return relationships
       else Raise (OSError "Parquet magic bytes not found") |}.

(** An output root that is a regular file. *)
Definition file_root_fs : Utils.filesystem :=
  {| Utils.path_exists p :=
       bool_decide (p ∈ ["rag_project"; "rag_project/output"]);
     Utils.path_isdir p := bool_decide (p = "rag_project");
     Utils.listdir p :=
       if bool_decide (p = "rag_project") then Return ["output"]
       else Raise (OSError "[Errno 20] Not a directory: 'rag_project/output'");
     Utils.getmtime p := 1704110400%Z;
     Utils.read_parquet p := Raise (OSError "No such file or directory") |}.

(** A project whose [cache] is a regular file. *)
Definition file_cache_fs : Utils.filesystem :=
  {| Utils.path_exists p :=
       bool_decide (p ∈ ["rag_project"; "rag_project/cache";
                         "rag_project/output"]);
     Utils.path_isdir p :=
       bool_decide (p ∈ ["rag_project"; "rag_project/output"]);
     Utils.listdir p := Return [];
     Utils.getmtime p := 1704110400%Z;
     Utils.read_parquet p := Raise (OSError "No such file or directory") |}.

(** The text of a [CalledProcessError], up to the command. *)
Definition exit_status : list string → Z → string :=
  λ _ code, "Command returned non-zero exit status " +:+ pretty code +:+ ".".

(** The globals of [utils.py] with [yaml] added, and a loader that
    rejects every text. *)
Definition globals_with_yaml : gset string := {["yaml"]} ∪ Utils.globals.

Definition rejects : string → outcome value :=
  λ _, Raise (YAMLError "mapping values are not allowed here").

Definition prints : value → string := λ _, "models: {}".

(** The entries of [settings]. *)
Definition settings_entries : list (string * value) :=
  match settings with
  | VDict d => d
  | _ => []
  end.

(** A loaded document without any of the blocks that are patched. *)
Definition bare_settings : list (string * value) :=
  [("input", VDict [("file_type", VStr "text")]);
   ("output", VDict [("base_dir", VStr "output")])].

(** A child that prints a complete log and then exits with code 1. *)
Definition failing_index : list string → outcome Utils.process :=
  λ _, Return {| Utils.stdout_lines :=
                   ["reading load_input"; "Pipeline complete";
                    "Traceback (most recent call last)"];
                 Utils.exit_code := 1 |}.

(** An empty disk, two uploads, and a PDF reader. *)
Definition blank_disk : Utils.disk := {| Utils.dirs := ∅; Utils.files := ∅ |}.

Definition notes_upload : Utils.UploadedFile :=
  {| Utils.name := "notes.txt"; Utils.buffer := "IIMs hold a WAT and a PI." |}.

Definition two_pages : string → outcome (list (option string)) :=
  λ _, Return [Some "Page one. "; None; Some "Page three."].

Definition unreadable : string → outcome (list (option string)) :=
  λ _, Raise (OSError "No /Root object! - Is this really a PDF?").

(** Lines of an indexing log. *)
Definition progress_line : string :=
  "12:01:07 INFO Extract Graph Progress: 3/10".

Definition complete_line : string := "12:09:44 INFO Pipeline complete".

Definition mixed_line : string :=
  "load_input_documents done; Extract Graph Progress: 0/10".

Definition late_embeddings_line : string :=
  "Pipeline complete (embeddings written)".

Definition out_of_order_log : list string :=
  ["Extract Graph Progress: 10/10"; "workflow create_final_text_units done"].

Definition in_order_log : list string :=
  ["reading load_input"; "nothing to report"; progress_line; complete_line].

(** A file whose id counter stands at the last rowid. *)
Definition full_store : store :=
  {| query_history := []; sqlite_sequence := MAX_ROWID |}.

End Samples.

(** * Properties *)

(** ** The history store *)

Module DatabaseFacts.
Import Database.
Local Open Scope Z_scope.

Lemma max_rowid_bound rows n :
  0 ≤ n → Forall (λ r, 1 ≤ id r ≤ n) rows → max_rowid rows ≤ n.
Proof.
  intros Hn. induction 1 as [|r rows [_ Hr] _ IH]; simpl; lia.
Qed.

Lemma next_rowid_ok s : store_ok s → next_rowid s = sqlite_sequence s + 1.
Proof.
  intros [_ Hids Hseq]. unfold next_rowid.
  pose proof (max_rowid_bound _ _ (proj1 Hseq) Hids). lia.
Qed.

(** What a save does to a file that satisfies the invariant. *)
Lemma save_query_ok now q m r s :
  store_ok s →
  sqlite_sequence s < MAX_ROWID →
  save_query now q m r s =
    Return (sqlite_sequence s + 1,
            {| query_history := query_history s ++
                 [{| id := sqlite_sequence s + 1; timestamp := strftime now;
                     query := q; method := m; response := r |}];
               sqlite_sequence := sqlite_sequence s + 1 |}).
Proof.
  intros Hok Hlt. unfold save_query. rewrite (next_rowid_ok _ Hok).
  destruct (decide _) as [|Hn]; [done | lia].
Qed.

Lemma save_query_full now q m r s :
  store_ok s →
  sqlite_sequence s = MAX_ROWID →
  save_query now q m r s = Raise (OperationalError "database or disk is full").
Proof.
  intros Hok Heq. unfold save_query. rewrite (next_rowid_ok _ Hok).
  destruct (decide _) as [Hle|]; [lia | done].
Qed.

Lemma save_query_inv now q m r s i s' :
  store_ok s →
  save_query now q m r s = Return (i, s') →
  sqlite_sequence s < MAX_ROWID ∧ i = sqlite_sequence s + 1 ∧
  s' = {| query_history := query_history s ++
            [{| id := i; timestamp := strftime now;
                query := q; method := m; response := r |}];
          sqlite_sequence := i |}.
Proof.
  intros Hok. unfold save_query. rewrite (next_rowid_ok _ Hok).
  destruct (decide _) as [Hle|]; [|done].
  intros [= <- <-]. repeat split. lia.
Qed.

Lemma store_ok_empty : store_ok empty_store.
Proof.
  split; simpl; [constructor | constructor | unfold MAX_ROWID; lia].
Qed.

Lemma store_ok_save now q m r s i s' :
  store_ok s → save_query now q m r s = Return (i, s') → store_ok s'.
Proof.
  intros Hok Hsave.
  destruct (save_query_inv _ _ _ _ _ _ _ Hok Hsave) as (Hlt & -> & ->).
  destruct Hok as [Hsorted Hids Hseq]. split; simpl.
  - apply StronglySorted_app_2; [|done|repeat constructor].
    intros x1 x2 Hx1 ->%list_elem_of_singleton. unfold id_asc; simpl.
    rewrite Forall_forall in Hids. specialize (Hids _ Hx1). simpl in Hids. lia.
  - apply Forall_app. split.
    + eapply Forall_impl; [exact Hids|]. simpl. intros; lia.
    + repeat constructor; simpl; lia.
  - lia.
Qed.

Lemma store_ok_clear s u s' :
  store_ok s → clear_history s = Return (u, s') → store_ok s'.
Proof.
  intros [_ _ Hseq] [= <- <-]. split; simpl; [constructor | constructor | done].
Qed.

Lemma reachable_ok s : reachable s → store_ok s.
Proof.
  induction 1 as [|s c i s' _ IH Hsave|s u s' _ IH Hclear].
  - exact store_ok_empty.
  - eapply store_ok_save; [exact IH | exact Hsave].
  - eapply store_ok_clear; [exact IH | exact Hclear].
Qed.

(** *** Listing order *)

Global Instance id_desc_trans : Transitive id_desc.
Proof. unfold id_desc. intros a b c; lia. Qed.

Global Instance id_desc_total : Total id_desc.
Proof. unfold id_desc. intros a b; lia. Qed.

Lemma id_asc_same_id rows a b :
  StronglySorted id_asc rows → a ∈ rows → b ∈ rows → id a = id b → a = b.
Proof.
  induction 1 as [|r rows _ IH Hr]; intros Ha Hb Hid.
  - by apply elem_of_nil in Ha.
  - rewrite Forall_forall in Hr. unfold id_asc in Hr.
    apply elem_of_cons in Ha as [->|Ha]; apply elem_of_cons in Hb as [->|Hb].
    + done.
    + specialize (Hr _ Hb). lia.
    + specialize (Hr _ Ha). lia.
    + by apply IH.
Qed.

Lemma reverse_id_strictly_desc rows :
  StronglySorted id_asc rows → StronglySorted id_strictly_desc (reverse rows).
Proof.
  induction 1 as [|r rows _ IH Hr]; [constructor|].
  rewrite reverse_cons. apply StronglySorted_app_2; [|done|repeat constructor].
  intros x1 x2 Hx1 ->%list_elem_of_singleton.
  rewrite elem_of_reverse in Hx1.
  rewrite Forall_forall in Hr. exact (Hr _ Hx1).
Qed.

Lemma StronglySorted_weaken {A} (R1 R2 : relation A) l :
  (∀ x y, R1 x y → R2 x y) → StronglySorted R1 l → StronglySorted R2 l.
Proof.
  intros HR. induction 1 as [|x l _ IH Hx]; constructor; [done|].
  eapply Forall_impl; [exact Hx | exact (HR x)].
Qed.

Lemma merge_sort_id_desc rows :
  StronglySorted id_asc rows → merge_sort id_desc rows = reverse rows.
Proof.
  intros Hsorted. apply (StronglySorted_unique_strong id_desc).
  - intros x1 x2 Hx1 Hx2 H12 H21. unfold id_desc in *.
    apply (id_asc_same_id rows); [done| | |lia].
    + by rewrite <-(merge_sort_Permutation id_desc rows).
    + by apply elem_of_reverse.
  - apply StronglySorted_merge_sort; apply _.
  - eapply StronglySorted_weaken; [|exact (reverse_id_strictly_desc _ Hsorted)].
    unfold id_strictly_desc, id_desc. intros; lia.
  - by rewrite merge_sort_Permutation, reverse_Permutation.
Qed.

Lemma get_all_queries_ok s :
  store_ok s → get_all_queries s = Return (reverse (query_history s), s).
Proof.
  intros [Hsorted _ _]. unfold get_all_queries.
  by rewrite (merge_sort_id_desc _ Hsorted).
Qed.

(** *** Runs of saves *)

Lemma save_all_ok calls : ∀ s ids s',
  store_ok s →
  save_all calls s = Return (ids, s') →
  store_ok s' ∧
  ∃ new, query_history s' = query_history s ++ new ∧
         id <$> new = ids ∧ length new = length calls.
Proof.
  induction calls as [|c calls IH]; intros s ids s' Hok; simpl.
  - intros [= <- <-]. split; [done|]. exists []. by rewrite app_nil_r.
  - unfold mbind, db_bind at 1.
    destruct (save c s) as [[i s1]|e] eqn:Hsave; [|done].
    unfold mbind, db_bind at 1.
    destruct (save_all calls s1) as [[ids1 s2]|e] eqn:Hrest; [|done].
    intros [= <- <-].
    pose proof (store_ok_save _ _ _ _ _ _ _ Hok Hsave) as Hok1.
    destruct (IH _ _ _ Hok1 Hrest) as (Hok2 & new & Hrows & Hids & Hlen).
    destruct (save_query_inv _ _ _ _ _ _ _ Hok Hsave) as (_ & _ & ->).
    simpl in Hrows. split; [done|]. eexists (_ :: new).
    rewrite Hrows, <-app_assoc, fmap_cons. simpl. by rewrite Hids, Hlen.
Qed.

(** Every save of a run succeeds as long as rowids are left. *)
Lemma save_all_succeeds calls : ∀ s,
  store_ok s →
  sqlite_sequence s + Z.of_nat (length calls) ≤ MAX_ROWID →
  ∃ ids s', save_all calls s = Return (ids, s').
Proof.
  induction calls as [|c calls IH]; intros s Hok Hroom; simpl.
  - by eexists _, _.
  - cbn [length] in Hroom. rewrite Nat2Z.inj_succ in Hroom.
    assert (sqlite_sequence s < MAX_ROWID) as Hlt by lia.
    pose proof (save_query_ok (at_time c) (arg_query c) (arg_method c)
                  (arg_response c) s Hok Hlt) as Hsave.
    pose proof (store_ok_save _ _ _ _ _ _ _ Hok Hsave) as Hok1.
    destruct (IH _ Hok1) as (ids & s' & Hrest); [simpl; lia|].
    unfold mbind, db_bind at 1. unfold save at 1. rewrite Hsave.
    unfold mbind, db_bind at 1. rewrite Hrest. by eexists _, _.
Qed.

(** *** Interleaved saves and clears *)

Lemma assigned_ids_ok calls : ∀ s ids s',
  store_ok s →
  assigned_ids calls s = (ids, s') →
  store_ok s' ∧
  Forall (λ i, sqlite_sequence s < i ≤ sqlite_sequence s') ids ∧
  sqlite_sequence s ≤ sqlite_sequence s' ∧
  StronglySorted Z.lt ids.
Proof.
  induction calls as [|[c|] calls IH]; intros s ids s' Hok; simpl.
  - intros [= <- <-].
    split; [done|]. split; [constructor|]. split; [lia|constructor].
  - destruct (save c s) as [[i s1]|e] eqn:Hsave.
    + destruct (assigned_ids calls s1) as [ids1 s2] eqn:Hrest.
      intros [= <- <-].
      pose proof (store_ok_save _ _ _ _ _ _ _ Hok Hsave) as Hok1.
      destruct (IH _ _ _ Hok1 Hrest) as (Hok2 & Hids & Hseq & Hsorted).
      destruct (save_query_inv _ _ _ _ _ _ _ Hok Hsave) as (_ & -> & ->).
      simpl in *. split; [done|]. split; [|split; [lia|]].
      * constructor; [lia|]. eapply Forall_impl; [exact Hids|]. simpl; lia.
      * constructor; [done|]. eapply Forall_impl; [exact Hids|]. simpl; lia.
    + intros Hrest. exact (IH _ _ _ Hok Hrest).
  - intros Hrest.
    exact (IH _ _ _ (store_ok_clear s tt _ Hok eq_refl) Hrest).
Qed.

Lemma StronglySorted_lt_NoDup (l : list Z) : StronglySorted Z.lt l → NoDup l.
Proof.
  induction 1 as [|x l _ IH Hx]; constructor; [|done].
  intros Hin. rewrite Forall_forall in Hx. specialize (Hx _ Hin). lia.
Qed.

(** *** The store at work *)

Example strftime_morning : strftime Samples.morning = "2025-03-14 09:05".
Proof. reflexivity. Qed.

Example three_saves_listing :
  (save_all Samples.three_saves;; get_all_queries) empty_store
  = Return
      ([{| id := 3; timestamp := "2025-03-14 09:05";
           query := ""; method := "hybrid"; response := "" |};
        {| id := 2; timestamp := "2025-03-14 09:05";
           query := "Summarise the corpus"; method := "global";
           response := "Error: no index" |};
        {| id := 1; timestamp := "2025-03-14 09:05";
           query := "What is GraphRAG?"; method := "local";
           response := "A retrieval pipeline." |}],
       {| query_history :=
            [{| id := 1; timestamp := "2025-03-14 09:05";
                query := "What is GraphRAG?"; method := "local";
                response := "A retrieval pipeline." |};
             {| id := 2; timestamp := "2025-03-14 09:05";
                query := "Summarise the corpus"; method := "global";
                response := "Error: no index" |};
             {| id := 3; timestamp := "2025-03-14 09:05";
                query := ""; method := "hybrid"; response := "" |}];
          sqlite_sequence := 3 |}).
Proof. vm_compute. reflexivity. Qed.

(** Ids 1 and 2 are deleted by the clear; the next save gets 3. *)
Example save_clear_save_ids :
  assigned_ids Samples.save_clear_save (init_db None)
  = ([1; 2; 3],
     {| query_history :=
          [{| id := 3; timestamp := "2025-03-14 09:05";
              query := "Q3"; method := "local"; response := "A3" |}];
        sqlite_sequence := 3 |}).
Proof. vm_compute. reflexivity. Qed.

Example get_query_by_id_absent :
  get_query_by_id Samples.inserted_at 7 Samples.two_row_store
  = Return (None, Samples.two_row_store).
Proof. vm_compute. reflexivity. Qed.

Example get_query_by_id_present :
  get_query_by_id Samples.inserted_at 2 Samples.two_row_store
  = Return
      (Some {| listed :=
                 {| id := 2; timestamp := "2025-03-14 09:05"; query := "Q2";
                    method := "global"; response := "A2" |};
               created_at := "2025-03-14 03:35:02" |},
       Samples.two_row_store).
Proof. vm_compute. reflexivity. Qed.

Example get_query_by_id_too_large :
  get_query_by_id Samples.inserted_at (2 ^ 63) Samples.two_row_store
  = Raise (OverflowError "Python int too large to convert to SQLite INTEGER").
Proof. vm_compute. reflexivity. Qed.

(** *** The claims on the history store *)

(** C1. After N successful [save_query] calls on a store with no rows,
    [get_query_count] returns N and [get_all_queries] returns exactly N
    records in strictly decreasing id order, newest first; their ids
    are the ids the calls returned, last call first. *)
Theorem save_all_count_and_listing s calls ids s' :
  reachable s →
  query_history s = [] →
  save_all calls s = Return (ids, s') →
  get_query_count s' = Return (Z.of_nat (length calls), s') ∧
  ∃ rows, get_all_queries s' = Return (rows, s') ∧
          length rows = length calls ∧
          StronglySorted id_strictly_desc rows ∧
          id <$> rows = reverse ids.
Proof.
  intros Hreach Hempty Hrun.
  destruct (save_all_ok _ _ _ _ (reachable_ok _ Hreach) Hrun)
    as (Hok & new & Hrows & Hids & Hlen).
  rewrite Hempty in Hrows. simpl in Hrows. split.
  - unfold get_query_count. by rewrite Hrows, Hlen.
  - exists (reverse (query_history s')). split; [by apply get_all_queries_ok|].
    split; [by rewrite length_reverse, Hrows|].
    split; [apply reverse_id_strictly_desc, Hok|].
    by rewrite fmap_reverse, Hrows, Hids.
Qed.

Lemma save_all_count_and_listing_witness :
  ∃ s', get_query_count s' = Return (3, s') ∧
  ∃ rows, get_all_queries s' = Return (rows, s') ∧
          length rows = 3%nat ∧
          StronglySorted id_strictly_desc rows ∧
          id <$> rows = [3; 2; 1].
Proof.
  eexists.
  apply (save_all_count_and_listing empty_store Samples.three_saves [1; 2; 3]).
  - exact reachable_init.
  - reflexivity.
  - vm_compute. reflexivity.
Defined.

(** C6. Along every interleaving of [save_query] and [clear_history]
    calls on a fresh store, the ids handed out are positive and
    strictly increasing in call order, so none is handed out twice,
    whatever was deleted in between; the rows that remain carry ids
    that were handed out. *)
Theorem assigned_ids_strictly_increasing calls :
  let '(ids, s') := assigned_ids calls (init_db None) in
  StronglySorted Z.lt ids ∧ NoDup ids ∧ Forall (λ i, 1 ≤ i) ids ∧
  Forall (λ r, id r ≤ sqlite_sequence s') (query_history s').
Proof.
  destruct (assigned_ids calls (init_db None)) as [ids s'] eqn:Hrun.
  destruct (assigned_ids_ok _ _ _ _ store_ok_empty Hrun)
    as (Hok & Hids & _ & Hsorted).
  split; [done|]. split; [by apply StronglySorted_lt_NoDup|]. split.
  - eapply Forall_impl; [exact Hids|]. simpl. intros; lia.
  - eapply Forall_impl; [exact (ok_ids _ Hok)|]. simpl. intros; lia.
Qed.

(** C7. Round trip: on a store with a rowid left,
    [save_query("Q1", "local", "A1")] succeeds and the first element of
    [get_all_queries()] then has query "Q1", method "local" and
    response "A1", the positive id that the call returned and a
    non-empty timestamp, the formatted time of the call. *)
Theorem save_query_round_trip s now :
  reachable s →
  sqlite_sequence s < MAX_ROWID →
  ∃ i s' first rest,
    save_query now "Q1" "local" "A1" s = Return (i, s') ∧
    get_all_queries s' = Return (first :: rest, s') ∧
    query first = "Q1" ∧ method first = "local" ∧ response first = "A1" ∧
    id first = i ∧ 0 < i ∧
    timestamp first = strftime now ∧ timestamp first ≠ "".
Proof.
  intros Hreach Hlt. pose proof (reachable_ok _ Hreach) as Hok.
  pose proof (save_query_ok now "Q1" "local" "A1" s Hok Hlt) as Hsave.
  pose proof (store_ok_save _ _ _ _ _ _ _ Hok Hsave) as Hok'.
  eexists _, _, _, _. split; [exact Hsave|].
  split; [rewrite (get_all_queries_ok _ Hok'); simpl;
          by rewrite reverse_snoc|].
  simpl. repeat split; [destruct Hok as [_ _ ?]; lia|].
  unfold strftime, pad4. simpl. discriminate.
Qed.

Lemma save_query_round_trip_witness :
  ∃ i s' first rest,
    save_query Samples.morning "Q1" "local" "A1" empty_store = Return (i, s') ∧
    get_all_queries s' = Return (first :: rest, s') ∧
    query first = "Q1" ∧ method first = "local" ∧ response first = "A1" ∧
    id first = i ∧ 0 < i ∧
    timestamp first = strftime Samples.morning ∧ timestamp first ≠ "".
Proof.
  apply (save_query_round_trip empty_store Samples.morning).
  - exact reachable_init.
  - vm_compute. reflexivity.
Defined.

(** C9. Whatever the store holds, [clear_history()] returns and a
    [get_query_count()] right after it returns 0. *)
Theorem clear_history_then_count s :
  ∃ s', clear_history s = Return (tt, s') ∧
        get_query_count s' = Return (0, s') ∧
        (clear_history;; get_query_count) s = Return (0, s').
Proof. by eexists. Qed.

(** The statement does not look at the text it is given: on a store
    with a rowid left, [save_query] succeeds for every bound query,
    method and response, the empty one included, returns a positive
    id, and [get_all_queries] returns the record with that id and the
    three texts as given, right away and after any later run of
    saves. *)
Lemma save_query_accepts_any_text s now q m r :
  reachable s →
  sqlite_sequence s < MAX_ROWID →
  ∃ i s',
    save_query now q m r s = Return (i, s') ∧ 0 < i ∧
    ∀ later ids s'',
      save_all later s' = Return (ids, s'') →
      ∃ rows, get_all_queries s'' = Return (rows, s'') ∧
              {| id := i; timestamp := strftime now;
                 query := q; method := m; response := r |} ∈ rows.
Proof.
  intros Hreach Hlt. pose proof (reachable_ok _ Hreach) as Hok.
  pose proof (save_query_ok now q m r s Hok Hlt) as Hsave.
  pose proof (store_ok_save _ _ _ _ _ _ _ Hok Hsave) as Hok'.
  eexists _, _. split; [exact Hsave|].
  split; [destruct Hok as [_ _ ?]; lia|].
  intros later ids s'' Hlater.
  destruct (save_all_ok _ _ _ _ Hok' Hlater) as (Hok'' & new & Hrows & _ & _).
  eexists. split; [by apply get_all_queries_ok|].
  rewrite elem_of_reverse, Hrows. simpl.
  apply elem_of_app. left. apply elem_of_app. right. by apply list_elem_of_singleton.
Qed.

Lemma save_query_accepts_any_text_witness :
  ∃ i s',
    save_query Samples.morning "" "" "" Samples.cleared_store = Return (i, s') ∧
    0 < i ∧
    ∀ later ids s'',
      save_all later s' = Return (ids, s'') →
      ∃ rows, get_all_queries s'' = Return (rows, s'') ∧
              {| id := i; timestamp := strftime Samples.morning;
                 query := ""; method := ""; response := "" |} ∈ rows.
Proof.
  apply (save_query_accepts_any_text Samples.cleared_store Samples.morning).
  - apply (reachable_clear Samples.two_row_store tt); [|reflexivity].
    apply (reachable_save Samples.one_row_store
             (Samples.ask "Q2" "global" "A2") 2); [|reflexivity].
    apply (reachable_save empty_store
             (Samples.ask "Q1" "local" "A1") 1); [|reflexivity].
    exact reachable_init.
  - vm_compute. reflexivity.
Defined.

(** *** [str] parameters *)






Example utf8_encode_samples :
  utf8_encode (str_literal "local") = Return "local" ∧
  utf8_encode [] = Return "" ∧
  utf8_encode [0xE9; 0x20AC; 0x1F600]%N
  = Return (String.string_of_list_ascii
              (ascii_of_N <$> [0xC3; 0xA9; 0xE2; 0x82; 0xAC;
                               0xF0; 0x9F; 0x98; 0x80]%N)) ∧
  utf8_encode [0x61; 0xDC80; 0xD800; 0x62]%N
  = Raise (UnicodeEncodeError
             "'utf-8' codec can't encode characters in position 1-2: surrogates not allowed").
Proof. repeat split; vm_compute; reflexivity. Qed.




(** *** Point lookup *)

Lemma filter_id_none i rows :
  Forall (λ r, id r ≠ i) rows → filter (λ r, id r = i) rows = [].
Proof.
  induction 1 as [|r rows Hr _ IH]; [done|].
  by rewrite filter_cons_False.
Qed.

Lemma head_filter_id s i r :
  store_ok s →
  head (filter (λ r, id r = i) (query_history s)) = Some r ↔
  r ∈ query_history s ∧ id r = i.
Proof.
  intros [Hsorted _ _]. split.
  - intros Hhead%head_Some_elem_of. by apply list_elem_of_filter in Hhead as [? ?].
  - intros [Hin Hid].
    destruct (head _) as [r'|] eqn:Hhead.
    + apply head_Some_elem_of, list_elem_of_filter in Hhead as [Hid' Hin'].
      f_equal. apply (id_asc_same_id _ _ _ Hsorted Hin' Hin). congruence.
    + apply head_None in Hhead.
      assert (r ∈ filter (λ r, id r = i) (query_history s)) as Hr
        by by apply list_elem_of_filter.
      rewrite Hhead in Hr. by apply elem_of_nil in Hr.
Qed.

(** X1. Insert then look up: on a store with a rowid left, the id that
    [save_query] returns is the key under which [get_query_by_id]
    finds the record just saved, with the three strings as given; the
    record found carries the [created_at] of that row as well. *)
Theorem get_query_by_id_after_save created s now q m r :
  reachable s →
  sqlite_sequence s < MAX_ROWID →
  ∃ i s',
    save_query now q m r s = Return (i, s') ∧
    get_query_by_id created i s' =
      Return (Some {| listed :=
                        {| id := i; timestamp := strftime now;
                           query := q; method := m; response := r |};
                      created_at := created i |}, s').
Proof.
  intros Hreach Hlt. pose proof (reachable_ok _ Hreach) as Hok.
  pose proof (save_query_ok now q m r s Hok Hlt) as Hsave.
  pose proof (store_ok_save _ _ _ _ _ _ _ Hok Hsave) as Hok'.
  eexists _, _. split; [exact Hsave|].
  unfold get_query_by_id. rewrite decide_True.
  - match goal with
    | |- context [head ?l] =>
      replace (head l)
        with (Some {| id := sqlite_sequence s + 1; timestamp := strftime now;
                      query := q; method := m; response := r |})
    end; [done|].
    symmetry. apply (head_filter_id _ _ _ Hok'). simpl. split; [|done].
    apply elem_of_app. right. by apply list_elem_of_singleton.
  - destruct Hok as [_ _ ?]. unfold MIN_ROWID, MAX_ROWID in *. lia.
Qed.

Lemma get_query_by_id_after_save_witness :
  ∃ i s',
    save_query Samples.morning "Q3" "local" "A3" Samples.two_row_store
      = Return (i, s') ∧
    get_query_by_id Samples.inserted_at i s' =
      Return (Some {| listed :=
                        {| id := i; timestamp := strftime Samples.morning;
                           query := "Q3"; method := "local";
                           response := "A3" |};
                      created_at := Samples.inserted_at i |}, s').
Proof.
  apply (get_query_by_id_after_save Samples.inserted_at Samples.two_row_store
           Samples.morning).
  - apply (reachable_save Samples.one_row_store
             (Samples.ask "Q2" "global" "A2") 2); [|reflexivity].
    apply (reachable_save empty_store
             (Samples.ask "Q1" "local" "A1") 1); [|reflexivity].
    exact reachable_init.
  - vm_compute. reflexivity.
Defined.

(** X2. An id that the store never handed out, zero, a negative number
    or a number above the id counter: [get_query_by_id] returns [None]
    when the number fits a signed 64-bit integer, and raises
    [OverflowError] when it does not. *)
Theorem get_query_by_id_never_assigned created s i :
  reachable s →
  i ≤ 0 ∨ sqlite_sequence s < i →
  get_query_by_id created i s =
    if decide (- 2 ^ 63 ≤ i < 2 ^ 63) then Return (None, s)
    else Raise (OverflowError
                  "Python int too large to convert to SQLite INTEGER").
Proof.
  intros Hreach Hi. destruct (reachable_ok _ Hreach) as [_ Hids _].
  unfold get_query_by_id, MIN_ROWID, MAX_ROWID.
  destruct (decide (- 2 ^ 63 ≤ i < 2 ^ 63)) as [Hfit|Hfit].
  - rewrite decide_True by lia. rewrite filter_id_none; [done|].
    eapply Forall_impl; [exact Hids|]. simpl. intros; lia.
  - by rewrite decide_False by lia.
Qed.

Lemma get_query_by_id_never_assigned_witness :
  get_query_by_id Samples.inserted_at 3 Samples.cleared_store
  = (if decide (- 2 ^ 63 ≤ 3 < 2 ^ 63)
     then Return (None, Samples.cleared_store)
     else Raise (OverflowError
                   "Python int too large to convert to SQLite INTEGER"))
  ∧ get_query_by_id Samples.inserted_at (2 ^ 63) empty_store
    = (if decide (- 2 ^ 63 ≤ 2 ^ 63 < 2 ^ 63)
       then Return (None, empty_store)
       else Raise (OverflowError
                     "Python int too large to convert to SQLite INTEGER")).
Proof.
  split.
  - apply (get_query_by_id_never_assigned Samples.inserted_at
             Samples.cleared_store 3).
    + apply (reachable_clear Samples.two_row_store tt); [|reflexivity].
      apply (reachable_save Samples.one_row_store
               (Samples.ask "Q2" "global" "A2") 2); [|reflexivity].
      apply (reachable_save empty_store
               (Samples.ask "Q1" "local" "A1") 1); [|reflexivity].
      exact reachable_init.
    + right. vm_compute. reflexivity.
  - apply (get_query_by_id_never_assigned Samples.inserted_at empty_store
             (2 ^ 63)).
    + exact reachable_init.
    + right. vm_compute. reflexivity.
Defined.

(** X3. Point lookup and listing agree on the columns they share: for
    an id that fits a signed 64-bit integer, [get_query_by_id(i)]
    returns a record exactly when [get_all_queries()] lists a record
    under id [i], and then the five listed columns of the two are
    equal; the record of the lookup has the column [created_at] in
    addition, which no record of the listing has. *)
Theorem get_query_by_id_agrees_with_listing created s :
  reachable s →
  ∃ rows,
    get_all_queries s = Return (rows, s) ∧
    ∀ i found,
      - 2 ^ 63 ≤ i < 2 ^ 63 →
      get_query_by_id created i s = Return (Some found, s) ↔
      listed found ∈ rows ∧ id (listed found) = i ∧
      created_at found = created i.
Proof.
  intros Hreach. pose proof (reachable_ok _ Hreach) as Hok.
  exists (reverse (query_history s)). split; [by apply get_all_queries_ok|].
  intros i [r c] Hfit. cbn [listed created_at].
  rewrite elem_of_reverse.
  unfold get_query_by_id, MIN_ROWID, MAX_ROWID. rewrite decide_True by lia.
  split.
  - intros [= Hfound]. apply fmap_Some in Hfound as (r' & Hhead & [= <- ->]).
    apply (head_filter_id _ _ _ Hok) in Hhead as [Hin Hid].
    by rewrite Hid.
  - intros (Hin & Hid & ->).
    assert (head (filter (λ r, id r = i) (query_history s)) = Some r) as ->
      by by apply (head_filter_id _ _ _ Hok).
    cbn [fmap option_fmap option_map]. by rewrite Hid.
Qed.

Lemma get_query_by_id_agrees_with_listing_witness :
  ∃ rows,
    get_all_queries Samples.two_row_store = Return (rows, Samples.two_row_store)
    ∧ ∀ i found,
        - 2 ^ 63 ≤ i < 2 ^ 63 →
        get_query_by_id Samples.inserted_at i Samples.two_row_store
          = Return (Some found, Samples.two_row_store)
        ↔ listed found ∈ rows ∧ id (listed found) = i ∧
          created_at found = Samples.inserted_at i.
Proof.
  apply (get_query_by_id_agrees_with_listing Samples.inserted_at
           Samples.two_row_store).
  apply (reachable_save Samples.one_row_store
           (Samples.ask "Q2" "global" "A2") 2); [|reflexivity].
  apply (reachable_save empty_store
           (Samples.ask "Q1" "local" "A1") 1); [|reflexivity].
  exact reachable_init.
Defined.

(** *** What a save changes *)

Lemma save_query_listing s now q m r :
  store_ok s →
  sqlite_sequence s < MAX_ROWID →
  ∃ i s' rows n,
    save_query now q m r s = Return (i, s') ∧
    get_all_queries s = Return (rows, s) ∧
    get_query_count s = Return (n, s) ∧
    get_all_queries s' =
      Return ({| id := i; timestamp := strftime now;
                 query := q; method := m; response := r |} :: rows, s') ∧
    get_query_count s' = Return (n + 1, s').
Proof.
  intros Hok Hlt.
  pose proof (save_query_ok now q m r s Hok Hlt) as Hsave.
  pose proof (store_ok_save _ _ _ _ _ _ _ Hok Hsave) as Hok'.
  eexists _, _, _, _. split; [exact Hsave|].
  split; [by apply get_all_queries_ok|]. split; [reflexivity|].
  split.
  - rewrite (get_all_queries_ok _ Hok'). simpl. by rewrite reverse_snoc.
  - unfold get_query_count. simpl. rewrite length_app. simpl.
    do 2 f_equal. lia.
Qed.

(** X4. A save is an append: the listing after [save_query] is the new
    record followed by the listing before it, record for record, and
    the count is one more. *)
Theorem save_query_prepends_to_listing s now q m r :
  reachable s →
  sqlite_sequence s < MAX_ROWID →
  ∃ i s' rows n,
    save_query now q m r s = Return (i, s') ∧
    get_all_queries s = Return (rows, s) ∧
    get_query_count s = Return (n, s) ∧
    get_all_queries s' =
      Return ({| id := i; timestamp := strftime now;
                 query := q; method := m; response := r |} :: rows, s') ∧
    get_query_count s' = Return (n + 1, s').
Proof.
  intros Hreach. apply save_query_listing, reachable_ok, Hreach.
Qed.

Lemma save_query_prepends_to_listing_witness :
  ∃ i s' rows n,
    save_query Samples.morning "Q3" "local" "A3" Samples.two_row_store
      = Return (i, s') ∧
    get_all_queries Samples.two_row_store
      = Return (rows, Samples.two_row_store) ∧
    get_query_count Samples.two_row_store
      = Return (n, Samples.two_row_store) ∧
    get_all_queries s' =
      Return ({| id := i; timestamp := strftime Samples.morning;
                 query := "Q3"; method := "local"; response := "A3" |}
              :: rows, s') ∧
    get_query_count s' = Return (n + 1, s').
Proof.
  apply (save_query_prepends_to_listing Samples.two_row_store Samples.morning).
  - apply (reachable_save Samples.one_row_store
             (Samples.ask "Q2" "global" "A2") 2); [|reflexivity].
    apply (reachable_save empty_store
             (Samples.ask "Q1" "local" "A1") 1); [|reflexivity].
    exact reachable_init.
  - vm_compute. reflexivity.
Defined.

Lemma save_all_ids calls : ∀ s ids s' k,
  store_ok s →
  save_all calls s = Return (ids, s') →
  (k < length calls)%nat →
  ids !! k = Some (sqlite_sequence s + Z.of_nat k + 1).
Proof.
  induction calls as [|c calls IH]; intros s ids s' k Hok; simpl; [lia|].
  unfold mbind, db_bind at 1.
  destruct (save c s) as [[i s1]|e] eqn:Hsave; [|done].
  unfold mbind, db_bind at 1.
  destruct (save_all calls s1) as [[ids1 s2]|e] eqn:Hrest; [|done].
  intros [= <- <-] Hk.
  pose proof (store_ok_save _ _ _ _ _ _ _ Hok Hsave) as Hok1.
  destruct (save_query_inv _ _ _ _ _ _ _ Hok Hsave) as (_ & -> & Hs1).
  destruct k as [|k]; simpl.
  - f_equal. lia.
  - rewrite (IH _ _ _ k Hok1 Hrest) by lia. rewrite Hs1. simpl. f_equal. lia.
Qed.

(** X5. Ids are handed out without gaps: in a run of saves that all
    return, the call at position k (counting from 0) gets the id
    counter of the store before the run plus k + 1, so on a fresh
    store the calls get 1, 2, 3, ... *)
Theorem save_all_ids_consecutive s calls ids s' k :
  reachable s →
  save_all calls s = Return (ids, s') →
  (k < length calls)%nat →
  ids !! k = Some (sqlite_sequence s + Z.of_nat k + 1).
Proof.
  intros Hreach. apply save_all_ids, reachable_ok, Hreach.
Qed.

Lemma save_all_ids_consecutive_witness :
  [1; 2; 3] !! 1%nat = Some (sqlite_sequence empty_store + Z.of_nat 1 + 1).
Proof.
  apply (save_all_ids_consecutive empty_store Samples.three_saves [1; 2; 3]
           {| query_history :=
                [{| id := 1; timestamp := "2025-03-14 09:05";
                    query := "What is GraphRAG?"; method := "local";
                    response := "A retrieval pipeline." |};
                 {| id := 2; timestamp := "2025-03-14 09:05";
                    query := "Summarise the corpus"; method := "global";
                    response := "Error: no index" |};
                 {| id := 3; timestamp := "2025-03-14 09:05";
                    query := ""; method := "hybrid"; response := "" |}];
              sqlite_sequence := 3 |} 1%nat).
  - exact reachable_init.
  - vm_compute. reflexivity.
  - vm_compute. lia.
Defined.

(** X6. When the id counter stands at the last rowid, [save_query]
    raises and hands out no id: a used id is not handed out again by
    wrapping around. *)
Theorem save_query_rowids_exhausted s now q m r :
  store_ok s →
  sqlite_sequence s = MAX_ROWID →
  save_query now q m r s = Raise (OperationalError "database or disk is full").
Proof. apply save_query_full. Qed.

Lemma save_query_rowids_exhausted_witness :
  save_query Samples.morning "Q" "local" "A" Samples.full_store
  = Raise (OperationalError "database or disk is full").
Proof.
  apply (save_query_rowids_exhausted Samples.full_store).
  - split; simpl; [constructor | constructor | unfold MAX_ROWID; lia].
  - reflexivity.
Defined.

(** *** Metadata *)

(** X7. Upsert by key: after two writes to the same key
    [get_metadata] returns the value of the second one, whatever the
    default, and the table holds that key once: its keys are the keys
    it had before and the written one.  On an empty table
    [get_metadata] returns the default. *)
Theorem metadata_last_write_wins (t : metadata_table) at1 at2 k v1 v2 d :
  get_metadata k d (set_metadata at2 k v2 (set_metadata at1 k v1 t)) = Some v2 ∧
  dom (set_metadata at2 k v2 (set_metadata at1 k v1 t)) = {[k]} ∪ dom t ∧
  get_metadata k d ∅ = d.
Proof.
  unfold get_metadata, set_metadata. split; [by rewrite lookup_insert_eq|].
  split; [|by rewrite lookup_empty].
  rewrite !dom_insert_L, (assoc_L (∪)). by rewrite (idemp_L (∪)).
Qed.

(** X8. A write to one key leaves every other key as it was: the value
    read for it, or the default when it was never written. *)
Theorem metadata_other_keys_kept (t : metadata_table) now k v k' d :
  k' ≠ k →
  get_metadata k' d (set_metadata now k v t) = get_metadata k' d t.
Proof.
  intros Hne. unfold get_metadata, set_metadata. by rewrite lookup_insert_ne.
Qed.

Lemma metadata_other_keys_kept_witness :
  get_metadata "theme" (Some "light")
    (set_metadata "2025-03-14T09:05:11.120934" "last_model" "llama3" ∅)
  = get_metadata "theme" (Some "light") ∅.
Proof. apply (metadata_other_keys_kept ∅). discriminate. Defined.

End DatabaseFacts.

(** ** The process orchestrator *)

Module UtilsFacts.
Import Utils.

(** *** [run_query] *)

Lemma load_global_bound G name : name ∈ G → load_global G name = Return tt.
Proof. intros Hin. unfold load_global. by rewrite decide_True. Qed.

Lemma load_global_unbound G name :
  name ∉ G → load_global G name = Raise (NameError name).
Proof. intros Hin. unfold load_global. by rewrite decide_False. Qed.

Lemma subprocess_unbound : "subprocess" ∉ globals.
Proof. vm_compute. intros H. discriminate H. Qed.

Lemma yaml_unbound : "yaml" ∉ globals.
Proof. vm_compute. intros H. discriminate H. Qed.

(** What [run_query] returns in a module that does bind [subprocess]
    next to the other names it reads: the three answers of the
    specification, and the text of the exception when the child cannot
    be started. *)
Lemma run_query_with_subprocess G cmd spawn query method :
  "os" ∈ G → "subprocess" ∈ G → "GRAPHRAG_CMD" ∈ G → "RAG_DIR" ∈ G →
  run_query G cmd spawn query method =
    Return
      match spawn [cmd; "query"; "--root"; RAG_DIR; "--method"; method;
                   "--query"; query] with
      | NotStarted msg => "Exception: " +:+ msg
      | Ran duration code out err =>
          if decide (600 < duration)%Z then timeout_message
          else if decide (code ≠ 0%Z) then "Error: " +:+ err
          else out
      end.
Proof.
  intros Hos Hsub Hcmd Hdir. unfold run_query, subprocess_run.
  rewrite !load_global_bound by done. simpl.
  destruct (spawn _) as [msg|duration code out err]; simpl; [done|].
  destruct (decide (600 < duration)%Z); simpl; [done|].
  by destruct (decide (code ≠ 0%Z)).
Qed.

(** C2. [run_query] is written to turn a timeout, a non-zero exit and a
    zero exit into three returned texts and never to raise, but
    [utils.py] does not import [subprocess]: for every query, method
    and child process, the read of [subprocess] in the [try] body
    raises [NameError], the first [except] clause reads [subprocess]
    again, and that second [NameError] leaves the function. *)
Theorem run_query_raises_NameError cmd spawn query method :
  run_query globals cmd spawn query method = Raise (NameError "subprocess").
Proof.
  unfold run_query.
  rewrite (load_global_bound globals "os") by (vm_compute; reflexivity).
  by rewrite (load_global_unbound _ _ subprocess_unbound).
Qed.

(** *** [update_settings] *)

Lemma dict_get_set_eq {A} (d : list (string * A)) k v :
  dict_get (dict_set d k v) k = Some v.
Proof.
  induction d as [|[k' v'] d IH]; simpl.
  - by rewrite decide_True.
  - destruct (decide (k' = k)) as [->|Hne]; simpl.
    + by rewrite decide_True.
    + by rewrite decide_False.
Qed.

Lemma dict_get_set_ne {A} (d : list (string * A)) k k' v :
  k ≠ k' → dict_get (dict_set d k v) k' = dict_get d k'.
Proof.
  intros Hne. induction d as [|[k0 v0] d IH]; simpl.
  - by rewrite decide_False.
  - destruct (decide (k0 = k)) as [->|Hne0]; simpl.
    + by rewrite !decide_False.
    + by rewrite IH.
Qed.

(** A run of assignments on a dict: the last assignment to a key
    wins, other keys keep their value. *)
Lemma py_setitems_dict kxs : ∀ d,
  ∃ d', py_setitems (VDict d) kxs = Return (VDict d') ∧
        ∀ k, dict_get d' k =
             match dict_get (reverse kxs) k with
             | Some x => Some x
             | None => dict_get d k
             end.
Proof.
  induction kxs as [|[k0 x0] kxs IH]; intros d; simpl.
  - by exists d.
  - destruct (IH (dict_set d k0 x0)) as (d' & Hrun & Hget).
    exists d'. split; [exact Hrun|]. intros k. rewrite Hget, reverse_cons.
    clear. induction (reverse kxs) as [|[k1 x1] l IHl]; simpl.
    + destruct (decide (k0 = k)) as [->|Hne].
      * apply dict_get_set_eq.
      * by apply dict_get_set_ne.
    + by destruct (decide (k1 = k)).
Qed.

Lemma patch_nested_dict outer inner kxs d mid sub :
  dict_get d outer = Some (VDict mid) →
  dict_get mid inner = Some (VDict sub) →
  ∃ sub', py_setitems (VDict sub) kxs = Return (VDict sub') ∧
    patch_nested outer inner kxs (VDict d) =
      Return (VDict (dict_set d outer (VDict (dict_set mid inner (VDict sub'))))).
Proof.
  intros Houter Hinner.
  destruct (py_setitems_dict kxs sub) as (sub' & Hrun & _).
  exists sub'. split; [exact Hrun|].
  unfold patch_nested. simpl. rewrite Houter. simpl. rewrite Hinner. simpl.
  by rewrite Hrun.
Qed.

Lemma patch_nested_absent outer inner kxs d :
  dict_get d outer = None →
  patch_nested outer inner kxs (VDict d) = Return (VDict d).
Proof. intros Houter. unfold patch_nested. simpl. by rewrite Houter. Qed.

(** [patch_block] on a document whose block is absent or a dict: it
    returns, and every other top-level key keeps its value. *)
Lemma patch_block_other block kxs d :
  block_ok d block →
  ∃ d', patch_block block kxs (VDict d) = Return (VDict d') ∧
        ∀ k, k ≠ block → dict_get d' k = dict_get d k.
Proof.
  unfold block_ok, patch_block. simpl.
  destruct (dict_get d block) as [v|] eqn:Hblock; simpl.
  - destruct v as [| | | | |?|sub]; try done. intros _.
    destruct (py_setitems_dict kxs sub) as (sub' & -> & _). simpl.
    eexists. split; [done|]. intros k Hne. by apply dict_get_set_ne.
  - intros _. by exists d.
Qed.

(** The overwrites know one value of the caller, the model name of the
    chat model: for the caller's model name "llama3", endpoint
    "https://api.openai.com/v1" and key "sk-test", the patched
    embedding sub-document names the model "nomic-embed-text", and the
    endpoint and key of both sub-documents are the ones of the local
    Ollama server. *)
Lemma overrides_not_callers_values :
  ∃ params',
    apply_overrides "llama3" Samples.settings = Return params' ∧
    get_path params' ["models"; "default_embedding_model"; "model"]
      ≠ Some (VStr "llama3") ∧
    get_path params' ["models"; "default_chat_model"; "api_base"]
      ≠ Some (VStr "https://api.openai.com/v1") ∧
    get_path params' ["models"; "default_chat_model"; "api_key"]
      ≠ Some (VStr "sk-test").
Proof. eexists. split; [vm_compute; reflexivity|]. by vm_compute. Qed.

(** For every model name and every document, without shared mappings,
    whose [models] mapping holds the chat-model and the
    embedding-model sub-documents, the overwrites succeed and leave,
    in the chat-model sub-document, [api_base] =
    "http://localhost:11434/v1", [api_key] = "ollama" and [model] = the
    given model name, and in the embedding-model sub-document the
    same [api_base] and [api_key] and [model] = "nomic-embed-text". *)
Lemma apply_overrides_fields model_name d models chat embed :
  dict_get d "models" = Some (VDict models) →
  dict_get models "default_chat_model" = Some (VDict chat) →
  dict_get models "default_embedding_model" = Some (VDict embed) →
  block_ok d "extract_graph" →
  block_ok d "chunks" →
  ∃ params',
    apply_overrides model_name (VDict d) = Return params' ∧
    get_path params' ["models"; "default_chat_model"; "api_base"]
      = Some (VStr ollama_api_base) ∧
    get_path params' ["models"; "default_chat_model"; "model"]
      = Some (VStr model_name) ∧
    get_path params' ["models"; "default_chat_model"; "api_key"]
      = Some (VStr "ollama") ∧
    get_path params' ["models"; "default_embedding_model"; "api_base"]
      = Some (VStr ollama_api_base) ∧
    get_path params' ["models"; "default_embedding_model"; "model"]
      = Some (VStr "nomic-embed-text") ∧
    get_path params' ["models"; "default_embedding_model"; "api_key"]
      = Some (VStr "ollama").
Proof.
  intros Hmodels Hchat Hembed Hgraph Hchunks. unfold apply_overrides.
  destruct (py_setitems_dict (chat_overrides model_name) chat)
    as (chat' & Hset1 & Hchat').
  destruct (py_setitems_dict embed_overrides embed)
    as (embed' & Hset2 & Hembed').
  destruct (patch_nested_dict "models" "default_chat_model"
              (chat_overrides model_name) _ _ _ Hmodels Hchat)
    as (? & Hset1' & ->).
  rewrite Hset1 in Hset1'. injection Hset1' as <-. simpl.
  set (models1 := dict_set models "default_chat_model" (VDict chat')).
  set (d1 := dict_set d "models" (VDict models1)).
  destruct (patch_nested_dict "models" "default_embedding_model"
              embed_overrides d1 models1 embed)
    as (? & Hset2' & ->).
  { apply dict_get_set_eq. }
  { unfold models1. by rewrite dict_get_set_ne. }
  rewrite Hset2 in Hset2'. injection Hset2' as <-. simpl.
  set (models2 := dict_set models1 "default_embedding_model" (VDict embed')).
  set (d2 := dict_set d1 "models" (VDict models2)).
  assert (∀ k, k ≠ "models" → dict_get d2 k = dict_get d k) as Hd2.
  { intros k Hne. unfold d2, d1. by rewrite !dict_get_set_ne. }
  destruct (patch_block_other "extract_graph" [("max_gleanings", VInt 0)] d2)
    as (d3 & -> & Hd3).
  { unfold block_ok. by rewrite Hd2. }
  simpl.
  destruct (patch_block_other "chunks"
              [("size", VInt 2000); ("overlap", VInt 200)] d3)
    as (d4 & -> & Hd4).
  { unfold block_ok. rewrite Hd3, Hd2 by done. exact Hchunks. }
  assert (dict_get d4 "models" = Some (VDict models2)) as Hm.
  { rewrite Hd4, Hd3 by done. apply dict_get_set_eq. }
  assert (dict_get models2 "default_chat_model" = Some (VDict chat')) as Hc.
  { unfold models2, models1.
    rewrite dict_get_set_ne by done. apply dict_get_set_eq. }
  assert (dict_get models2 "default_embedding_model" = Some (VDict embed'))
    as He by apply dict_get_set_eq.
  eexists. split; [done|]. simpl. rewrite Hm, Hc, He, !Hchat', !Hembed'.
  done.
Qed.

Lemma apply_overrides_fields_witness :
  ∃ params',
    apply_overrides "llama3" Samples.settings = Return params' ∧
    get_path params' ["models"; "default_chat_model"; "api_base"]
      = Some (VStr ollama_api_base) ∧
    get_path params' ["models"; "default_chat_model"; "model"]
      = Some (VStr "llama3") ∧
    get_path params' ["models"; "default_chat_model"; "api_key"]
      = Some (VStr "ollama") ∧
    get_path params' ["models"; "default_embedding_model"; "api_base"]
      = Some (VStr ollama_api_base) ∧
    get_path params' ["models"; "default_embedding_model"; "model"]
      = Some (VStr "nomic-embed-text") ∧
    get_path params' ["models"; "default_embedding_model"; "api_key"]
      = Some (VStr "ollama").
Proof.
  eapply (apply_overrides_fields "llama3");
    [reflexivity | reflexivity | reflexivity | exact I | exact I].
Defined.

(** C4. The projector stops before any overwrite, in the two ways the
    code reaches it.  The page passes the caller's model name,
    endpoint and key, three arguments, to a function of one parameter:
    the call raises [TypeError] whatever the file holds.  And called
    with the model name alone, the function reads the global [yaml],
    which [utils.py] does not import: for every existing
    [settings.yaml] it returns [False] with the text of the
    [NameError], and the file is left as it was.  No field of the
    file is set to a value of the caller, and nothing is written
    back. *)
Theorem update_settings_as_written safe_load dump model_name api_base api_key
    text :
  App.update_settings_button safe_load dump model_name api_base api_key
    (Some text)
  = Raise (TypeError
      "update_settings() takes from 0 to 1 positional arguments but 3 were given")
  ∧ update_settings safe_load dump globals model_name (Some text) =
      ((false, "Failed to update settings: name 'yaml' is not defined"),
       Some text).
Proof.
  split; [reflexivity|].
  unfold update_settings. by rewrite (load_global_unbound _ _ yaml_unbound).
Qed.

(** With [yaml] bound, the patched document is what is written back. *)
Lemma update_settings_writes_back safe_load dump G model_name text
    params params' :
  "yaml" ∈ G →
  safe_load text = Return params →
  apply_overrides model_name params = Return params' →
  update_settings safe_load dump G model_name (Some text) =
    ((true, "Updated settings.yaml for Ollama."), Some (dump params')).
Proof.
  intros HG Hload Hpatch. unfold update_settings.
  rewrite !load_global_bound by done. simpl. rewrite Hload. simpl.
  by rewrite Hpatch.
Qed.

(** *** The artifact loader *)

Lemma path_join_nonempty a b : a ≠ "" → path_join a b ≠ "".
Proof.
  intros Ha. unfold path_join.
  destruct (String.prefix "/" b) eqn:Hb.
  - intros ->. discriminate Hb.
  - destruct a as [|c a]; [done|]. by destruct (_ || _).
Qed.

Lemma max_by_elem {A} (key : A → Z) xs : ∀ x, max_by key x xs ∈ x :: xs.
Proof.
  induction xs as [|y ys IH]; intros x; simpl.
  - by apply list_elem_of_singleton.
  - specialize (IH (if decide (key x < key y)%Z then y else x)).
    apply elem_of_cons in IH as [->|IH].
    + destruct (decide _); [apply elem_of_cons; right|]; apply elem_of_cons;
        by left.
    + by do 2 (apply elem_of_cons; right).
Qed.

(** The directory that [get_latest_output_dir] names is never the
    empty path, so [load_parquet_files] does not take it for "no
    output". *)
Lemma get_latest_output_dir_nonempty fs dir :
  get_latest_output_dir fs = Return (Some dir) → dir ≠ "".
Proof.
  unfold get_latest_output_dir.
  destruct (negb _); [done|].
  destruct (path_exists fs (path_join _ "entities.parquet")).
  { intros [= <-]. by vm_compute. }
  destruct (listdir fs _) as [names|e]; simpl; [|done].
  destruct (filter _ _) as [|d ds] eqn:Hsub; [done|].
  intros [= <-].
  assert (max_by (getmtime fs) d ds ≠ "") as Hlatest.
  { pose proof (max_by_elem (getmtime fs) ds d) as Hin.
    rewrite <-Hsub in Hin.
    apply list_elem_of_filter in Hin as [_ Hin].
    apply list_elem_of_fmap in Hin as (name & -> & _).
    by apply path_join_nonempty. }
  destruct (path_exists fs _); [by apply path_join_nonempty | done].
Qed.

Lemma load_only_relationships fs dir df :
  only_relationships fs dir df →
  foldl (load_key fs dir) ∅ file_patterns =
    <["reports" := empty_frame]>
      (<["relationships" := df]> (<["entities" := empty_frame]> ∅)).
Proof.
  intros (He1 & He2 & Hc1 & Hc2 & Hr).
  cbn [foldl file_patterns load_key load_first].
  rewrite He1, He2, Hc1, Hc2.
  rewrite (decide_False (P := is_Some (∅ !! "entities")))
    by (rewrite lookup_empty; apply is_Some_None).
  assert (load_first fs dir "relationships"
            ["relationships.parquet"; "create_final_relationships.parquet"]
            (<["entities" := empty_frame]> ∅)
          = <["relationships" := df]> (<["entities" := empty_frame]> ∅)) as Hl.
  { cbn [load_first].
    destruct Hr as [(-> & _ & ->)|(-> & -> & ->)]; reflexivity. }
  cbn [load_first] in Hl. rewrite Hl.
  rewrite (decide_True
             (P := is_Some (<["relationships" := df]>
                              (<["entities" := empty_frame]> ∅)
                            !! "relationships")))
    by (rewrite lookup_insert_eq; by eexists).
  rewrite decide_False; [done|].
  rewrite !lookup_insert_ne, lookup_empty by done. apply is_Some_None.
Qed.

(** C5, amended.  When the directory that [get_latest_output_dir]
    resolves holds one relationships file that reads as a table, and
    no entities or community-reports file, [load_parquet_files]
    returns, without raising, that table as the relationships dataset
    and an empty entities dataset and an empty reports dataset. *)
Theorem load_parquet_files_only_relationships fs dir df :
  get_latest_output_dir fs = Return (Some dir) →
  only_relationships fs dir df →
  ∃ data,
    load_parquet_files fs = Return (Some data) ∧
    data !! "relationships" = Some df ∧
    data !! "entities" = Some empty_frame ∧
    data !! "reports" = Some empty_frame ∧
    frame_empty empty_frame = true.
Proof.
  intros Hdir Honly. unfold load_parquet_files. rewrite Hdir.
  cbn [mbind outcome_bind].
  pose proof (get_latest_output_dir_nonempty _ _ Hdir) as Hne.
  destruct dir as [|c dir]; [done|].
  rewrite (load_only_relationships _ _ _ Honly).
  eexists. split; [done|]. by simplify_map_eq.
Qed.

Lemma load_parquet_files_only_relationships_witness :
  ∃ data,
    load_parquet_files Samples.run_fs = Return (Some data) ∧
    data !! "relationships" = Some Samples.relationships ∧
    data !! "entities" = Some empty_frame ∧
    data !! "reports" = Some empty_frame ∧
    frame_empty empty_frame = true.
Proof.
  apply (load_parquet_files_only_relationships Samples.run_fs
           "rag_project/output/20240101-120000/artifacts").
  - vm_compute. reflexivity.
  - vm_compute. repeat split; try reflexivity. left. repeat split; reflexivity.
Defined.

(** C5, as the specification has it, fails when the output location
    is the output root: the root is recognised by [entities.parquet]
    alone, so a root that holds only [relationships.parquet], with no
    run directory under it, resolves to no output, and the loader
    returns [None] in place of the three datasets. *)
Lemma load_parquet_files_flat_root :
  path_isdir Samples.flat_fs "rag_project/output" = true ∧
  only_relationships Samples.flat_fs "rag_project/output"
    Samples.relationships ∧
  get_latest_output_dir Samples.flat_fs = Return None ∧
  load_parquet_files Samples.flat_fs = Return None.
Proof.
  split; [reflexivity|]. split; [|split; vm_compute; reflexivity].
  vm_compute. repeat split; try reflexivity. left. repeat split; reflexivity.
Qed.

(** *** [run_query] at work *)

Example run_query_as_written :
  run_query globals "graphrag" Samples.answers "What is GraphRAG?" "local"
  = Raise (NameError "subprocess").
Proof. vm_compute. reflexivity. Qed.

Example run_query_answers :
  run_query Samples.globals_with_subprocess "graphrag" Samples.answers
    "What is GraphRAG?" "local"
  = Return "GraphRAG builds a knowledge graph.".
Proof. vm_compute. reflexivity. Qed.

Example run_query_fails :
  run_query Samples.globals_with_subprocess "graphrag" Samples.fails
    "What is GraphRAG?" "local"
  = Return "Error: No index found".
Proof. vm_compute. reflexivity. Qed.

Example run_query_hangs :
  run_query Samples.globals_with_subprocess "graphrag" Samples.hangs
    "What is GraphRAG?" "global"
  = Return timeout_message.
Proof. vm_compute. reflexivity. Qed.

Example run_query_missing :
  run_query Samples.globals_with_subprocess "graphrag" Samples.missing
    "What is GraphRAG?" "local"
  = Return "Exception: [Errno 2] No such file or directory: 'graphrag'".
Proof. vm_compute. reflexivity. Qed.

(** *** More on [run_query] *)

(** X9. The one exception that can leave [run_query] is the
    [NameError] for [subprocess]: in a module that binds [subprocess]
    the call returns a text whatever else is unbound and whatever the
    child does, and in a module that does not it raises that
    [NameError]. *)
Theorem run_query_raises_only_NameError G cmd spawn query method :
  match run_query G cmd spawn query method with
  | Return _ => "subprocess" ∈ G
  | Raise e => ("subprocess" ∉ G) ∧ e = NameError "subprocess"
  end.
Proof.
  unfold run_query, subprocess_run, load_global.
  destruct (decide ("subprocess" ∈ G)) as [Hsub|Hsub];
    destruct (decide ("os" ∈ G)); simpl; try done;
    destruct (decide ("GRAPHRAG_CMD" ∈ G)); simpl; try done;
    destruct (decide ("RAG_DIR" ∈ G)); simpl; try done.
  destruct (spawn _) as [msg|duration code out err]; simpl; [done|].
  destruct (decide (600 < duration)%Z); simpl; [done|].
  by destruct (decide (code ≠ 0%Z)).
Qed.

(** *** More on [update_settings] *)

(** X10. A failed update leaves the file as it was: whenever
    [update_settings] reports [False], for a missing file, an unbound
    name, a text that does not load or a document of the wrong shape,
    [settings.yaml] is absent or has its old text. *)
Theorem update_settings_failure_keeps_file safe_load dump G model_name
    settings :
  (update_settings safe_load dump G model_name settings).1.1 = false →
  (update_settings safe_load dump G model_name settings).2 = settings.
Proof.
  unfold update_settings. destruct settings as [text|]; [|done].
  by destruct (_ ≫= _).
Qed.

Lemma update_settings_failure_keeps_file_witness :
  (update_settings Samples.rejects Samples.prints Samples.globals_with_yaml
     "llama3" (Some "models: : :")).2 = Some "models: : :".
Proof.
  apply (update_settings_failure_keeps_file Samples.rejects Samples.prints
           Samples.globals_with_yaml "llama3" (Some "models: : :")).
  vm_compute. reflexivity.
Defined.

Lemma dict_set_keys {A} (d : list (string * A)) k v :
  is_Some (dict_get d k) → (dict_set d k v).*1 = d.*1.
Proof.
  induction d as [|[k' v'] d IH]; simpl.
  - by intros [? ?].
  - destruct (decide (k' = k)) as [->|Hne]; [done|].
    intros H. csimpl. by rewrite IH.
Qed.

(** What [patch_nested] and [patch_block] can do to a dict when they
    return: nothing, or replace the value under their own top-level
    key. *)
Lemma patch_nested_shape outer inner kxs d params' :
  patch_nested outer inner kxs (VDict d) = Return params' →
  ∃ d', params' = VDict d' ∧ d'.*1 = d.*1 ∧
        ∀ k, k ≠ outer → dict_get d' k = dict_get d k.
Proof.
  unfold patch_nested. simpl.
  destruct (dict_get d outer) as [mid|] eqn:Houter; simpl;
    [|intros [= <-]; by exists d].
  destruct (py_contains inner mid) as [[]|]; simpl;
    [|intros [= <-]; by exists d|done].
  destruct (py_getitem mid inner) as [sub|]; simpl; [|done].
  destruct (py_setitems sub kxs) as [sub'|]; simpl; [|done].
  destruct (py_setitem mid inner sub') as [mid'|]; simpl; [|done].
  intros [= <-]. eexists. split; [done|]. split.
  - apply dict_set_keys. by eexists.
  - intros k Hne. by apply dict_get_set_ne.
Qed.

Lemma patch_block_shape block kxs d params' :
  patch_block block kxs (VDict d) = Return params' →
  ∃ d', params' = VDict d' ∧ d'.*1 = d.*1 ∧
        ∀ k, k ≠ block → dict_get d' k = dict_get d k.
Proof.
  unfold patch_block. simpl.
  destruct (dict_get d block) as [sub|] eqn:Hblock; simpl;
    [|intros [= <-]; by exists d].
  destruct (py_setitems sub kxs) as [sub'|]; simpl; [|done].
  intros [= <-]. eexists. split; [done|]. split.
  - apply dict_set_keys. by eexists.
  - intros k Hne. by apply dict_get_set_ne.
Qed.

(** On a document without shared mappings the overwrites pass the
    rest through: when they succeed on a mapping, the result is a
    mapping with the same top-level keys in the same order, and every
    key other than [models], [extract_graph] and [chunks] has the
    value it had. *)
Lemma apply_overrides_passes_through model_name d params' :
  apply_overrides model_name (VDict d) = Return params' →
  ∃ d', params' = VDict d' ∧ d'.*1 = d.*1 ∧
        ∀ k, k ∉ ["models"; "extract_graph"; "chunks"] →
             dict_get d' k = dict_get d k.
Proof.
  unfold apply_overrides. intros H.
  destruct (patch_nested "models" "default_chat_model" _ _) as [p1|] eqn:H1;
    simpl in H; [|done].
  apply patch_nested_shape in H1 as (d1 & -> & Hk1 & Hd1).
  destruct (patch_nested "models" "default_embedding_model" _ _)
    as [p2|] eqn:H2; simpl in H; [|done].
  apply patch_nested_shape in H2 as (d2 & -> & Hk2 & Hd2).
  destruct (patch_block "extract_graph" _ _) as [p3|] eqn:H3;
    simpl in H; [|done].
  apply patch_block_shape in H3 as (d3 & -> & Hk3 & Hd3).
  apply patch_block_shape in H as (d4 & -> & Hk4 & Hd4).
  exists d4. split; [done|]. split; [congruence|].
  intros k Hk. rewrite Hd4, Hd3, Hd2, Hd1; [done|..];
    intros ->; apply Hk; set_solver.
Qed.

Lemma apply_overrides_passes_through_witness :
  ∃ d', apply_overrides "llama3" (VDict Samples.settings_entries)
          = Return (VDict d') ∧
        d'.*1 = ["models"; "chunks"; "extract_graph"; "input"] ∧
        ∀ k, k ∉ ["models"; "extract_graph"; "chunks"] →
             dict_get d' k = dict_get Samples.settings_entries k.
Proof.
  edestruct (apply_overrides_passes_through "llama3" Samples.settings_entries)
    as (d' & Heq & Hkeys & Hrest); [vm_compute; reflexivity|].
  exists d'. split; [|split; [exact Hkeys | exact Hrest]].
  rewrite <-Heq. vm_compute. reflexivity.
Defined.

(** X12. A document that has none of [models], [extract_graph] and
    [chunks] is not an error: every overwrite is skipped and the
    document comes back as it was. *)
Theorem apply_overrides_skips_absent_blocks model_name d :
  dict_get d "models" = None →
  dict_get d "extract_graph" = None →
  dict_get d "chunks" = None →
  apply_overrides model_name (VDict d) = Return (VDict d).
Proof.
  intros Hmodels Hgraph Hchunks. unfold apply_overrides.
  rewrite (patch_nested_absent _ _ _ _ Hmodels). simpl.
  rewrite (patch_nested_absent _ _ _ _ Hmodels). simpl.
  unfold patch_block. simpl. rewrite Hgraph. simpl. by rewrite Hchunks.
Qed.

Lemma apply_overrides_skips_absent_blocks_witness :
  apply_overrides "llama3" (VDict Samples.bare_settings)
  = Return (VDict Samples.bare_settings).
Proof.
  apply (apply_overrides_skips_absent_blocks "llama3" Samples.bare_settings);
    reflexivity.
Defined.

(** *** More on the artifact loader *)

Lemma max_by_max {A} (key : A → Z) xs : ∀ x,
  (key x ≤ key (max_by key x xs))%Z ∧
  Forall (λ y, key y ≤ key (max_by key x xs))%Z xs.
Proof.
  induction xs as [|y ys IH]; intros x; simpl.
  - split; [lia|constructor].
  - destruct (IH (if decide (key x < key y)%Z then y else x)) as [Hx' Hys].
    destruct (decide (key x < key y)%Z); (split; [|constructor]); (lia || done).
Qed.

(** X13. With no [entities.parquet] directly in the output root, the
    loader reads from the sub-directory of the root whose modification
    time is the latest, plain files next to it being ignored, and from
    the [artifacts] directory inside it when there is one. *)
Theorem get_latest_output_dir_latest fs names :
  path_exists fs "rag_project/output" = true →
  path_exists fs "rag_project/output/entities.parquet" = false →
  listdir fs "rag_project/output" = Return names →
  let subdirs :=
    filter (λ p, path_isdir fs p = true)
      (path_join "rag_project/output" <$> names) in
  subdirs ≠ [] →
  ∃ latest,
    latest ∈ subdirs ∧
    Forall (λ d, getmtime fs d ≤ getmtime fs latest)%Z subdirs ∧
    get_latest_output_dir fs =
      Return (Some (if path_exists fs (path_join latest "artifacts")
                    then path_join latest "artifacts" else latest)).
Proof.
  intros Hroot Hflat Hlist subdirs Hsub. unfold get_latest_output_dir.
  change (path_join RAG_DIR "output") with "rag_project/output".
  change (path_join "rag_project/output" "entities.parquet")
    with "rag_project/output/entities.parquet".
  rewrite Hroot, Hflat, Hlist. cbn [negb mbind outcome_bind]. fold subdirs.
  destruct subdirs as [|d ds]; [done|].
  exists (max_by (getmtime fs) d ds). split; [apply max_by_elem|].
  split; [|done].
  destruct (max_by_max (getmtime fs) ds d) as [Hd Hds]. by constructor.
Qed.

Lemma get_latest_output_dir_latest_witness :
  ∃ latest,
    latest ∈ ["rag_project/output/run1"; "rag_project/output/run2"] ∧
    Forall (λ d, Utils.getmtime Samples.two_runs_fs d
                 ≤ Utils.getmtime Samples.two_runs_fs latest)%Z
      ["rag_project/output/run1"; "rag_project/output/run2"] ∧
    get_latest_output_dir Samples.two_runs_fs =
      Return (Some (if path_exists Samples.two_runs_fs
                         (path_join latest "artifacts")
                    then path_join latest "artifacts" else latest)).
Proof.
  apply (get_latest_output_dir_latest Samples.two_runs_fs
           ["run1"; "notes.txt"; "run2"]).
  - reflexivity.
  - reflexivity.
  - reflexivity.
  - vm_compute. discriminate.
Defined.

Lemma load_key_two fs dir data key new old :
  data !! key = None →
  load_key fs dir data (key, [new; old]) =
    <[key := default (default empty_frame (readable fs (path_join dir old)))
               (readable fs (path_join dir new))]> data.
Proof.
  intros Hkey. unfold load_key, readable. cbn [load_first].
  assert (∀ df, (if decide (is_Some (<[key := df]> data !! key))
                 then <[key := df]> data
                 else <[key := empty_frame]> (<[key := df]> data))
                = <[key := df]> data) as Hset.
  { intros df. destruct (decide _) as [|Hn]; [done|].
    destruct Hn. rewrite lookup_insert_eq. by eexists. }
  assert ((if decide (is_Some (data !! key)) then data
           else <[key := empty_frame]> data)
          = <[key := empty_frame]> data) as Hunset.
  { destruct (decide _) as [Hs|]; [|done]. rewrite Hkey in Hs. by destruct Hs. }
  destruct (path_exists fs (path_join dir new));
    [destruct (read_parquet fs (path_join dir new)) as [df|]|];
    try (by rewrite Hset);
    (destruct (path_exists fs (path_join dir old));
     [destruct (read_parquet fs (path_join dir old)) as [df'|]|]);
    by rewrite ?Hset, ?Hunset.
Qed.

(** X14. Whatever directory the loader resolves, its result has
    exactly the three datasets [entities], [relationships] and
    [reports].  Each one is what the file under the new name reads as;
    when that file is missing or does not read, what the file under
    the old name reads as; and an empty frame when that fails too. *)
Theorem load_parquet_files_datasets fs dir :
  get_latest_output_dir fs = Return (Some dir) →
  ∃ data,
    load_parquet_files fs = Return (Some data) ∧
    dom data = {["entities"; "relationships"; "reports"]} ∧
    ∀ key new old,
      (key, [new; old]) ∈ file_patterns →
      data !! key =
        Some (default (default empty_frame (readable fs (path_join dir old)))
                (readable fs (path_join dir new))).
Proof.
  intros Hdir. unfold load_parquet_files. rewrite Hdir.
  cbn [mbind outcome_bind].
  pose proof (get_latest_output_dir_nonempty _ _ Hdir) as Hne.
  destruct dir as [|c dir]; [done|]. set (dir' := String c dir).
  cbn [foldl file_patterns].
  rewrite (load_key_two _ _ ∅) by apply lookup_empty.
  rewrite (load_key_two _ _ (<["entities" := _]> ∅))
    by (by rewrite lookup_insert_ne, lookup_empty).
  rewrite load_key_two by (by rewrite !lookup_insert_ne, lookup_empty).
  eexists. split; [done|]. split.
  - rewrite !dom_insert_L, dom_empty_L. set_solver.
  - intros key new old Hin.
    repeat (apply elem_of_cons in Hin as [[= -> -> ->]|Hin];
            [by simplify_map_eq|]).
    by apply elem_of_nil in Hin.
Qed.

Lemma load_parquet_files_datasets_witness :
  ∃ data,
    load_parquet_files Samples.two_runs_fs = Return (Some data) ∧
    dom data = {["entities"; "relationships"; "reports"]} ∧
    ∀ key new old,
      (key, [new; old]) ∈ file_patterns →
      data !! key =
        Some (default
                (default empty_frame
                   (readable Samples.two_runs_fs
                      (path_join "rag_project/output/run2" old)))
                (readable Samples.two_runs_fs
                   (path_join "rag_project/output/run2" new))).
Proof.
  apply (load_parquet_files_datasets Samples.two_runs_fs
           "rag_project/output/run2").
  vm_compute. reflexivity.
Defined.

(** X15. A file that does not read never makes the loader raise: the
    only exception that leaves [load_parquet_files] is the one that
    [os.listdir] raises on the output root. *)
Theorem load_parquet_files_raises_only_listdir fs e :
  load_parquet_files fs = Raise e →
  listdir fs "rag_project/output" = Raise e.
Proof.
  unfold load_parquet_files.
  destruct (get_latest_output_dir fs) as [[[|c dir]|]|e'] eqn:Hdir;
    cbn [mbind outcome_bind]; try done.
  intros [= <-]. revert Hdir. unfold get_latest_output_dir.
  change (path_join RAG_DIR "output") with "rag_project/output".
  destruct (negb _); [done|].
  destruct (path_exists fs (path_join _ "entities.parquet")); [done|].
  destruct (listdir fs _) as [names|e'']; cbn [mbind outcome_bind];
    [|by intros [= ->]].
  by destruct (filter _ _).
Qed.

Lemma load_parquet_files_raises_only_listdir_witness :
  Utils.listdir Samples.file_root_fs "rag_project/output"
  = Raise (OSError "[Errno 20] Not a directory: 'rag_project/output'").
Proof.
  apply (load_parquet_files_raises_only_listdir Samples.file_root_fs).
  vm_compute. reflexivity.
Defined.

(** *** [clear_project] *)

(** X16. Clear then load: when each of [cache] and [output] under the
    project is absent or is a directory and not a symbolic link,
    [clear_project] reports success, both are gone afterwards, and
    [load_parquet_files] then finds no output. *)
Theorem clear_project_then_load islink fs :
  (path_exists fs "rag_project/cache" = true →
   path_isdir fs "rag_project/cache" = true ∧
   islink "rag_project/cache" = false) →
  (path_exists fs "rag_project/output" = true →
   path_isdir fs "rag_project/output" = true ∧
   islink "rag_project/output" = false) →
  ∃ fs',
    clear_project islink fs
      = Return ((true, "Cleared cache and output."), fs') ∧
    path_exists fs' "rag_project/cache" = false ∧
    path_exists fs' "rag_project/output" = false ∧
    load_parquet_files fs' = Return None.
Proof.
  intros Hcache Houtput. unfold clear_project.
  change (path_join RAG_DIR "cache") with "rag_project/cache".
  change (path_join RAG_DIR "output") with "rag_project/output".
  assert (∀ fs1, path_exists fs1 "rag_project/output" = false →
                 load_parquet_files fs1 = Return None) as Hload.
  { intros fs1 H1. unfold load_parquet_files, get_latest_output_dir.
    change (path_join RAG_DIR "output") with "rag_project/output".
    by rewrite H1. }
  unfold rmtree.
  destruct (path_exists fs "rag_project/cache") eqn:Hc;
    [destruct (Hcache eq_refl) as [-> ->]|]; cbn [mbind outcome_bind];
    cbn [without_tree path_exists path_isdir];
    change (under "rag_project/cache" "rag_project/output") with false;
    rewrite ?andb_true_r;
    (destruct (path_exists fs "rag_project/output") eqn:Ho;
     [destruct (Houtput eq_refl) as [-> ->]|]); cbn [mbind outcome_bind];
    eexists; (split; [reflexivity|]);
    cbn [without_tree path_exists];
    change (under "rag_project/cache" "rag_project/cache") with true;
    change (under "rag_project/output" "rag_project/output") with true;
    change (under "rag_project/output" "rag_project/cache") with false;
    rewrite ?Hc, ?Ho, ?andb_false_r; simpl;
    (split; [done|]); (split; [done|]);
    apply Hload; cbn [without_tree path_exists];
    change (under "rag_project/output" "rag_project/output") with true;
    change (under "rag_project/cache" "rag_project/output") with false;
    by rewrite ?Ho, ?andb_false_r.
Qed.

Lemma clear_project_then_load_witness :
  ∃ fs',
    clear_project (λ _, false) Samples.two_runs_fs
      = Return ((true, "Cleared cache and output."), fs') ∧
    path_exists fs' "rag_project/cache" = false ∧
    path_exists fs' "rag_project/output" = false ∧
    load_parquet_files fs' = Return None.
Proof.
  apply (clear_project_then_load (λ _, false) Samples.two_runs_fs).
  - vm_compute. discriminate.
  - intros _. split; reflexivity.
Defined.

(** X17. [clear_project] does not guard its deletions: when [cache]
    exists and is not a directory the call raises the error of
    [shutil.rmtree], and it does so before [output] is looked at.  The
    error is that of a path that is not a directory, or, when [cache]
    is a symbolic link to such a path, that of a symbolic link. *)
Theorem clear_project_file_in_the_way islink fs :
  path_exists fs "rag_project/cache" = true →
  path_isdir fs "rag_project/cache" = false →
  clear_project islink fs
  = Raise (OSError
             (if islink "rag_project/cache"
              then "Cannot call rmtree on a symbolic link"
              else "[Errno 20] Not a directory: 'rag_project/cache'")).
Proof.
  intros Hexists Hdir. unfold clear_project, rmtree.
  change (path_join RAG_DIR "cache") with "rag_project/cache".
  rewrite Hexists, Hdir. by destruct (islink "rag_project/cache").
Qed.

Lemma clear_project_file_in_the_way_witness :
  clear_project (λ _, false) Samples.file_cache_fs
  = Raise (OSError "[Errno 20] Not a directory: 'rag_project/cache'").
Proof.
  apply (clear_project_file_in_the_way (λ _, false) Samples.file_cache_fs);
    reflexivity.
Defined.

(** A symbolic link to a directory stops [clear_project] as well,
    although [os.path.isdir] holds of it. *)
Lemma clear_project_symlink fs :
  path_exists fs "rag_project/cache" = true →
  clear_project (λ p, bool_decide (p = "rag_project/cache")) fs
  = Raise (OSError "Cannot call rmtree on a symbolic link").
Proof.
  intros Hexists. unfold clear_project, rmtree.
  change (path_join RAG_DIR "cache") with "rag_project/cache".
  by rewrite Hexists.
Qed.

(** *** Locating and starting the executable *)

Example dirname_samples :
  dirname "/usr/bin/python3" = "/usr/bin" ∧ dirname "python3" = "" ∧
  dirname "/python3" = "/" ∧ dirname "venv//bin/python" = "venv//bin" ∧
  dirname "//python3" = "//".
Proof. repeat split; vm_compute; reflexivity. Qed.

Lemma detect_graphrag_cmd_nonempty which executable :
  detect_graphrag_cmd which executable ≠ "".
Proof.
  assert (path_join (dirname executable) "graphrag" ≠ "") as Hfallback.
  { unfold path_join. cbn [String.prefix].
    destruct (Ascii.ascii_dec "/" "g") as [Heq|_]; [discriminate Heq|].
    destruct (_ || _); by destruct (dirname executable). }
  unfold detect_graphrag_cmd. destruct which as [found|]; [|done].
  by destruct (bool_decide_reflect (found = "")).
Qed.

(** X18. The detected command is never empty, because detection falls
    back to a path next to the interpreter; so [init_graphrag] never
    answers with the executable-not-found message, also when no
    [graphrag] is installed. *)
Theorem init_graphrag_never_not_found G which executable spawn describe
    rag_dir_exists :
  match init_graphrag G (detect_graphrag_cmd which executable) spawn describe
          rag_dir_exists with
  | Return (result, _) => result.2 ≠ not_found_message
  | Raise _ => True
  end.
Proof.
  unfold init_graphrag, load_global.
  destruct (decide ("os" ∈ G)); [|done].
  destruct (decide ("RAG_DIR" ∈ G)); [|done].
  destruct (decide ("GRAPHRAG_CMD" ∈ G));
    [|by destruct rag_dir_exists].
  rewrite bool_decide_false by apply detect_graphrag_cmd_nonempty.
  destruct rag_dir_exists; cbn [mbind outcome_bind];
    (destruct (decide ("subprocess" ∈ G)); cbn [mbind outcome_bind];
     [|discriminate]);
    (destruct (spawn _) as [msg|duration code out err];
     [discriminate|]);
    by destruct (decide (code = 0%Z)).
Qed.

(** X19. As [utils.py] is written, without an import of [subprocess],
    [init_graphrag] creates the project directory and then reports
    "Failed to init" with the text of the [NameError], and
    [run_indexing] returns no process, whatever the executable would
    have done. *)
Theorem init_and_indexing_as_written cmd spawn describe rag_dir_exists popen :
  cmd ≠ "" →
  init_graphrag globals cmd spawn describe rag_dir_exists
    = Return ((false, "Failed to init: name 'subprocess' is not defined"),
              true) ∧
  run_indexing globals cmd popen = None.
Proof.
  intros Hcmd. split.
  - unfold init_graphrag.
    rewrite !(load_global_bound globals "os") by (vm_compute; reflexivity).
    rewrite !(load_global_bound globals "RAG_DIR") by (vm_compute; reflexivity).
    rewrite !(load_global_bound globals "GRAPHRAG_CMD")
      by (vm_compute; reflexivity).
    rewrite (load_global_unbound _ _ subprocess_unbound).
    rewrite bool_decide_false by done. by destruct rag_dir_exists.
  - unfold run_indexing.
    rewrite (load_global_bound globals "os") by (vm_compute; reflexivity).
    by rewrite !(load_global_unbound _ _ subprocess_unbound).
Qed.

Lemma init_and_indexing_as_written_witness :
  init_graphrag globals "/usr/local/bin/graphrag" Samples.answers
    Samples.exit_status false
    = Return ((false, "Failed to init: name 'subprocess' is not defined"),
              true) ∧
  run_indexing globals "/usr/local/bin/graphrag"
    (λ _, Return {| stdout_lines := ["Pipeline complete"]; exit_code := 0 |})
  = None.
Proof.
  apply (init_and_indexing_as_written "/usr/local/bin/graphrag").
  discriminate.
Defined.

End UtilsFacts.

(** ** The progress classifier *)

Module AppFacts.
Import App.

Lemma lower_app a b : lower (a +:+ b) = lower a +:+ lower b.
Proof. induction a as [|c a IH]; simpl; [done|]. by rewrite IH. Qed.

Lemma prefix_app a b : String.prefix a (a +:+ b) = true.
Proof.
  induction a as [|c a IH]; simpl; [by destruct b|].
  by destruct (Ascii.ascii_dec c c).
Qed.

Lemma str_contains_prefix needle hay :
  String.prefix needle hay = true → str_contains needle hay = true.
Proof. destruct hay; simpl; by intros ->. Qed.

(** [needle in pre + needle + post] *)
Lemma str_contains_app needle pre post :
  str_contains needle (pre +:+ needle +:+ post) = true.
Proof.
  induction pre as [|c pre IH].
  - change ("" +:+ needle +:+ post) with (needle +:+ post).
    apply str_contains_prefix, prefix_app.
  - change (String c pre +:+ needle +:+ post)
      with (String c (pre +:+ needle +:+ post)).
    cbn [str_contains]. rewrite IH. apply orb_true_r.
Qed.

(** A keyword in any letter case, anywhere in the line, is found in the
    lowered line. *)
Lemma str_contains_lower keyword pre mid post :
  lower mid = keyword →
  str_contains keyword (lower (pre +:+ mid +:+ post)) = true.
Proof.
  intros <-. rewrite !lower_app. apply str_contains_app.
Qed.

(** The [if]/[elif] chain is first match over the table. *)
Lemma classify_first_match line : classify line = first_match (lower line).
Proof.
  unfold classify, first_match, table. cbn [List.find fst snd].
  repeat (destruct (str_contains _ _); cbn [andb fmap option_fmap option_map];
          try reflexivity).
Qed.

Lemma table_milestones_increasing :
  StronglySorted lt ((λ row, row.1.2) <$> table).
Proof. repeat constructor. Qed.

(** *** One line *)

(** C3, as the specification has it, fails: the text around the
    keyword matters.  A line with "Extract Graph Progress" that also
    mentions [load_input] is put at 10%, and a line with "Pipeline
    complete" that also mentions [embeddings] at 90%. *)
Lemma classify_depends_on_surrounding_text :
  ¬ (∀ pre post,
       fst <$> classify (pre +:+ "Extract Graph Progress" +:+ post) = Some 50) ∧
  ¬ (∀ pre post,
       fst <$> classify (pre +:+ "Pipeline complete" +:+ post) = Some 100).
Proof.
  split.
  - intros H. specialize (H "load_input_documents done; " ": 0/10").
    vm_compute in H. discriminate H.
  - intros H. specialize (H "" " (embeddings written)").
    vm_compute in H. discriminate H.
Qed.

(** C3, amended.  A line that contains "Extract Graph Progress" in any
    letter case is put at the 50% milestone when none of the three
    rows before it in the chain matches the line, and a line that
    contains "Pipeline complete" in any letter case at the 100%
    milestone when none of the eight rows before it matches. *)
Theorem classify_keyword_first_match pre mid post keyword n p text :
  (keyword, n, p, text) ∈
    [("extract graph progress", 3%nat, 50%nat, "Extracting graph...");
     ("pipeline complete", 8%nat, 100%nat, "Complete!")] →
  lower mid = keyword →
  unmatched_before n (lower (pre +:+ mid +:+ post)) →
  classify (pre +:+ mid +:+ post) = Some (p, text).
Proof.
  intros Hrow Hmid Hbefore.
  pose proof (str_contains_lower keyword pre mid post Hmid) as Hfound.
  rewrite classify_first_match. unfold first_match, table.
  unfold unmatched_before, table in Hbefore.
  apply elem_of_cons in Hrow as [[= -> -> -> ->]|Hrow];
    [|apply list_elem_of_singleton in Hrow as [= -> -> -> ->]];
    cbn [take] in Hbefore;
    repeat (apply Forall_cons in Hbefore; destruct Hbefore as [? Hbefore]);
    cbn [List.find fst snd] in *; cbv beta in *; rewrite ?Hfound;
    repeat match goal with H : _ = false |- _ => rewrite H; clear H end;
    rewrite ?Hfound; reflexivity.
Qed.

Lemma classify_keyword_first_match_witness :
  classify Samples.progress_line = Some (50, "Extracting graph...") ∧
  classify Samples.complete_line = Some (100, "Complete!").
Proof.
  split.
  - apply (classify_keyword_first_match "12:01:07 INFO "
             "Extract Graph Progress" ": 3/10" "extract graph progress" 3).
    + apply elem_of_cons. left. reflexivity.
    + reflexivity.
    + vm_compute. repeat constructor.
  - apply (classify_keyword_first_match "12:09:44 INFO "
             "Pipeline complete" "" "pipeline complete" 8).
    + apply elem_of_cons. right. apply elem_of_cons. left. reflexivity.
    + reflexivity.
    + vm_compute. repeat constructor.
Defined.

Example classify_mixed_line :
  classify Samples.mixed_line = Some (10, "Loading documents...").
Proof. vm_compute. reflexivity. Qed.

Example classify_late_embeddings_line :
  classify Samples.late_embeddings_line = Some (90, "Generating embeddings...").
Proof. vm_compute. reflexivity. Qed.

(** *** A stream of lines *)

Example percentages_in_order :
  percentages (start "") Samples.in_order_log = [10; 10; 50; 100].
Proof. vm_compute. reflexivity. Qed.

Example percentages_out_of_order :
  percentages (start "") Samples.out_of_order_log = [50; 20].
Proof. vm_compute. reflexivity. Qed.

(** C8, as the specification has it, fails: the handler sets the bar
    to the milestone of the current line and keeps no maximum.  After
    a line at 50%, a later line that mentions [text_units] puts the bar
    back to 20%. *)
Lemma percentages_can_decrease :
  ¬ (∀ lines, Sorted le (percentages (start "") lines)).
Proof.
  intros H. specialize (H Samples.out_of_order_log).
  vm_compute in H. apply Sorted_inv in H as [_ H].
  apply HdRel_inv in H. lia.
Qed.

Lemma Sorted_le_cons2 (p q : nat) l :
  Sorted le (p :: q :: l) ↔ p ≤ q ∧ Sorted le (q :: l).
Proof.
  split.
  - intros [H1 H2%HdRel_inv]%Sorted_inv. done.
  - intros [Hpq Hl]. constructor; [done|]. by constructor.
Qed.

Lemma percentages_milestones lines : ∀ st,
  Sorted le (percent st :: percentages st lines) ↔
  Sorted le (percent st :: milestones lines).
Proof.
  induction lines as [|line lines IH]; intros st; [done|].
  unfold milestones. cbn [percentages omap list_omap]. unfold on_line at 1 2.
  fold (milestones lines).
  destruct (classify line) as [[q text]|] eqn:Hline; cbn [fmap option_fmap option_map fst percent].
  - rewrite !Sorted_le_cons2.
    specialize (IH {| logs := logs st +:+ line; percent := q; label := text |}).
    cbn [percent] in IH. by rewrite IH.
  - specialize (IH {| logs := logs st +:+ line; percent := percent st;
                      label := label st |}).
    cbn [percent] in IH. rewrite Sorted_le_cons2, IH. intuition lia.
Qed.

(** C8, amended.  A line that matches a keyword sets the bar to that
    keyword's milestone and a line that matches none leaves the bar as
    it is; so the percentages reported over a stream never decrease
    exactly when the milestones of its matching lines, in arrival
    order, never decrease. *)
Theorem percentages_monotone_iff logs lines :
  Sorted le (percentages (start logs) lines) ↔ Sorted le (milestones lines).
Proof.
  pose proof (percentages_milestones lines (start logs)) as H.
  cbn [percent start] in H.
  assert (∀ l, Sorted le (0 :: l) ↔ Sorted le l) as Hzero.
  { intros l. split; [by intros [? _]%Sorted_inv|].
    intros Hl. constructor; [done|]. destruct l; constructor; lia. }
  by rewrite !Hzero in H.
Qed.

(** *** The whole indexing handler *)

Lemma append_assoc (a b c : string) : (a +:+ b) +:+ c = a +:+ b +:+ c.
Proof.
  induction a as [|x a IH]; [done|].
  change (String x ((a +:+ b) +:+ c) = String x (a +:+ b +:+ c)).
  by rewrite IH.
Qed.

Lemma append_empty_r (a : string) : a +:+ "" = a.
Proof.
  induction a as [|x a IH]; [done|].
  change (String x (a +:+ "") = String x a). by rewrite IH.
Qed.

Lemma classify_milestone line p text :
  classify line = Some (p, text) → 10 ≤ p ≤ 100.
Proof.
  unfold classify.
  repeat (destruct (str_contains _ _); cbn [andb];
          try (intros [= <- <-]; lia)).
Qed.

Lemma percentages_bounded lines : ∀ st,
  percent st ≤ 100 → Forall (λ p, p ≤ 100) (percentages st lines).
Proof.
  induction lines as [|line lines IH]; intros st Hst; [constructor|].
  cbn [percentages].
  assert (percent (on_line st line) ≤ 100) as Hnext.
  { unfold on_line.
    destruct (classify line) as [[p text]|] eqn:Hline; cbn [percent]; [|done].
    apply classify_milestone in Hline. lia. }
  constructor; [done|]. by apply IH.
Qed.

(** X20. The value put on the progress bar is always one that
    [st.progress] accepts: over any stream of lines every reported
    percentage is at most 100. *)
Theorem percentages_at_most_100 logs lines :
  Forall (λ p, p ≤ 100) (percentages (start logs) lines).
Proof. apply percentages_bounded. cbn [percent start]. lia. Qed.

Lemma foldl_on_line lines : ∀ st,
  logs (foldl on_line st lines) = logs st +:+ String.concat "" lines ∧
  percent (foldl on_line st lines)
  = default (percent st) (last (milestones lines)).
Proof.
  induction lines as [|line lines IH]; intros st.
  - cbn [foldl String.concat milestones omap list_omap last default].
    split; [|done]. by rewrite append_empty_r.
  - cbn [foldl]. destruct (IH (on_line st line)) as [Hlogs Hpercent].
    rewrite Hlogs, Hpercent. unfold milestones at 2.
    cbn [omap list_omap]. fold (milestones lines). unfold on_line.
    split.
    + assert (String.concat "" (line :: lines)
              = line +:+ String.concat "" lines) as ->.
      { destruct lines; [|done]. cbn [String.concat].
        by rewrite append_empty_r. }
      destruct (classify line) as [[p text]|]; cbn [logs];
        apply append_assoc.
    + destruct (classify line) as [[p text]|];
        cbn [percent fmap option_fmap option_map fst]; [|done].
      destruct (milestones lines) as [|q qs] eqn:Hms; [done|].
      rewrite last_cons_cons.
      destruct (last (q :: qs)) eqn:Hlast; [done|]. by apply last_None in Hlast.
Qed.

(** X21. What the Start Indexing handler leaves on the page.  When
    the child cannot be started, the handler reports that, the log is
    as it was and the bar stays at 0; as [utils.py] is written, without
    an import of [subprocess], this is what happens on every click.
    When the child is started, the log holds every line it printed, in
    order, after what the log held before; on exit code 0 the bar is
    at 100%, whatever the lines were; on any other exit code the
    indexing is reported as failed and the bar is left at the
    milestone of the last line that matched a keyword, 0 if none
    did. *)
Theorem start_indexing_outcome G cmd popen old_logs :
  (let '(st, result) := start_indexing G cmd popen old_logs in
   match Utils.run_indexing G cmd popen with
   | None => st = start old_logs ∧ result = IndexingNotStarted
   | Some process =>
       logs st = old_logs +:+ String.concat "" (Utils.stdout_lines process) ∧
       if decide (Utils.exit_code process = 0%Z) then
         percent st = 100 ∧ result = IndexingDone
       else
         percent st
         = default 0 (last (milestones (Utils.stdout_lines process))) ∧
         result = IndexingFailed (Utils.exit_code process)
   end) ∧
  start_indexing Utils.globals cmd popen old_logs
  = (start old_logs, IndexingNotStarted).
Proof.
  split; [|reflexivity].
  unfold start_indexing.
  destruct (Utils.run_indexing G cmd popen) as [process|]; [|done].
  destruct (foldl_on_line (Utils.stdout_lines process) (start old_logs))
    as [Hlogs Hpercent].
  cbn [logs percent start] in Hlogs, Hpercent.
  by destruct (decide (Utils.exit_code process = 0%Z)).
Qed.

Example start_indexing_child_fails :
  start_indexing Samples.globals_with_subprocess "graphrag"
    Samples.failing_index ""
  = ({| logs := "reading load_inputPipeline completeTraceback (most recent call last)";
        percent := 100; label := "Complete!" |},
     IndexingFailed 1).
Proof. vm_compute. reflexivity. Qed.

(** *** The Ask button *)

(** X22. Ask then list: for a non-empty question the Ask button stores
    a record exactly when [run_query] returns.  Whatever text
    [run_query] returns, an answer, an error text or the timeout
    message, the button shows it and stores it as the response of one
    new record, which [get_all_queries] lists first, before the
    records that were there.  When [run_query] raises, the exception
    leaves the handler and nothing is stored; as [utils.py] is
    written, without an import of [subprocess], this is the
    [NameError] for [subprocess], for every non-empty question. *)
Theorem ask_button_saves_answer G cmd spawn now query method s :
  query ≠ "" →
  Database.reachable s →
  (Database.sqlite_sequence s < Database.MAX_ROWID)%Z →
  match Utils.run_query G cmd spawn query method with
  | Return text =>
      ∃ i s' rows,
        Database.get_all_queries s = Return (rows, s) ∧
        ask_button G cmd spawn now query method s = Return (Answer text, s') ∧
        Database.get_all_queries s' =
          Return ({| Database.id := i;
                     Database.timestamp := Database.strftime now;
                     Database.query := query; Database.method := method;
                     Database.response := text |} :: rows, s')
  | Raise e => ask_button G cmd spawn now query method s = Raise e
  end ∧
  ask_button Utils.globals cmd spawn now query method s
  = Raise (NameError "subprocess").
Proof.
  intros Hquery Hreach Hroom. split.
  - destruct (Utils.run_query G cmd spawn query method) as [text|e] eqn:Hrun.
    + destruct (DatabaseFacts.save_query_listing s now query method text
                  (DatabaseFacts.reachable_ok _ Hreach) Hroom)
        as (i & s' & rows & n & Hsave & Hbefore & _ & Hafter & _).
      exists i, s', rows. split; [done|]. split; [|done].
      unfold ask_button. rewrite bool_decide_false by done.
      unfold mbind, Database.db_bind, db_lift. rewrite Hrun.
      unfold mbind, Database.db_bind. by rewrite Hsave.
    + unfold ask_button. rewrite bool_decide_false by done.
      unfold mbind, Database.db_bind, db_lift. by rewrite Hrun.
  - unfold ask_button. rewrite bool_decide_false by done.
    unfold mbind, Database.db_bind, db_lift.
    unfold Utils.run_query.
    rewrite (UtilsFacts.load_global_bound Utils.globals "os")
      by (vm_compute; reflexivity).
    by rewrite (UtilsFacts.load_global_unbound _ _ UtilsFacts.subprocess_unbound).
Qed.

Lemma ask_button_saves_answer_witness :
  (ask_button Utils.globals "graphrag" Samples.answers Samples.morning
     "What is GraphRAG?" "local" Database.empty_store
   = Raise (NameError "subprocess") ∧
   ask_button Utils.globals "graphrag" Samples.answers Samples.morning
     "What is GraphRAG?" "local" Database.empty_store
   = Raise (NameError "subprocess")) ∧
  ((∃ i s' rows,
      Database.get_all_queries Database.empty_store
        = Return (rows, Database.empty_store) ∧
      ask_button Samples.globals_with_subprocess "graphrag" Samples.hangs
        Samples.morning "What is GraphRAG?" "global" Database.empty_store
        = Return (Answer Utils.timeout_message, s') ∧
      Database.get_all_queries s' =
        Return ({| Database.id := i;
                   Database.timestamp := Database.strftime Samples.morning;
                   Database.query := "What is GraphRAG?";
                   Database.method := "global";
                   Database.response := Utils.timeout_message |} :: rows, s')) ∧
   ask_button Utils.globals "graphrag" Samples.hangs Samples.morning
     "What is GraphRAG?" "global" Database.empty_store
   = Raise (NameError "subprocess")).
Proof.
  split.
  - apply (ask_button_saves_answer Utils.globals "graphrag" Samples.answers
             Samples.morning "What is GraphRAG?" "local"
             Database.empty_store).
    + discriminate.
    + exact Database.reachable_init.
    + vm_compute. reflexivity.
  - apply (ask_button_saves_answer Samples.globals_with_subprocess "graphrag"
             Samples.hangs Samples.morning "What is GraphRAG?" "global"
             Database.empty_store).
    + discriminate.
    + exact Database.reachable_init.
    + vm_compute. reflexivity.
Defined.

End AppFacts.

(** ** Uploads *)

Module UploadFacts.
Import Utils.

(** *** Strings and paths *)

Lemma list_ascii_app (a b : string) :
  String.list_ascii_of_string (a +:+ b)
  = String.list_ascii_of_string a ++ String.list_ascii_of_string b.
Proof.
  induction a as [|x a IH]; [done|].
  change (x :: String.list_ascii_of_string (a +:+ b)
          = x :: (String.list_ascii_of_string a
                  ++ String.list_ascii_of_string b)).
  by rewrite IH.
Qed.

Lemma length_append (a b : string) :
  String.length (a +:+ b) = String.length a + String.length b.
Proof.
  induction a as [|x a IH]; [done|].
  change (S (String.length (a +:+ b)) = S (String.length a + String.length b)).
  by rewrite IH.
Qed.

Lemma str_contains_char c s :
  str_contains (String c "") s = false → c ∉ String.list_ascii_of_string s.
Proof.
  induction s as [|x s IH]; cbn [str_contains String.prefix].
  - intros _. apply not_elem_of_nil.
  - destruct (Ascii.ascii_dec c x) as [->|Hne].
    + by destruct s.
    + cbn [orb]. intros Hs. apply not_elem_of_cons. split; [done|]. by apply IH.
Qed.

Lemma existsb_is_slash l :
  "/"%char ∉ l → existsb (λ x, bool_decide (x = "/"%char)) l = false.
Proof.
  induction l as [|x l IH]; [done|].
  intros [Hx Hl]%not_elem_of_cons. cbn [existsb].
  by rewrite bool_decide_false, IH by done.
Qed.

Lemma dirname_input name :
  "/"%char ∉ String.list_ascii_of_string name →
  dirname ("rag_project/input/" +:+ name) = "rag_project/input".
Proof.
  intros Hname%existsb_is_slash. unfold dirname.
  assert (through_last_slash
            (String.list_ascii_of_string ("rag_project/input/" +:+ name))
          = String.list_ascii_of_string "rag_project/input/") as ->.
  { rewrite list_ascii_app. simpl. by rewrite Hname. }
  vm_compute. reflexivity.
Qed.

Lemma path_join_input name :
  "/"%char ∉ String.list_ascii_of_string name →
  path_join INPUT_DIR name = "rag_project/input/" +:+ name.
Proof.
  intros Hname. unfold path_join.
  assert (String.prefix "/" name = false) as ->.
  { destruct name as [|x name]; [done|]. cbn [String.prefix].
    destruct (Ascii.ascii_dec "/" x) as [<-|]; [|done].
    destruct Hname. apply elem_of_cons. by left. }
  reflexivity.
Qed.

Lemma ends_with_slash_input name :
  name ≠ "" →
  "/"%char ∉ String.list_ascii_of_string name →
  ends_with_slash ("rag_project/input/" +:+ name) = false.
Proof.
  intros Hne Hname. unfold ends_with_slash.
  rewrite list_ascii_app, last_app.
  destruct (last (String.list_ascii_of_string name)) as [y|] eqn:Hlast.
  - apply last_Some_elem_of in Hlast. apply bool_decide_false. by intros ->.
  - apply last_None in Hlast. destruct name; [done|discriminate Hlast].
Qed.

Lemma input_path_not_project_dir name p :
  p ∈ ({[RAG_DIR; INPUT_DIR]} : gset string) →
  "rag_project/input/" +:+ name ≠ p.
Proof.
  intros [->%elem_of_singleton| ->%elem_of_singleton]%elem_of_union;
    vm_compute; discriminate.
Qed.

Lemma rfind_notin c l : c ∉ l → rfind c l = (-1)%Z.
Proof.
  induction l as [|x l IH]; [done|].
  intros [Hx Hl]%not_elem_of_cons. cbn [rfind]. rewrite IH by done.
  rewrite decide_False by lia. by rewrite bool_decide_false by done.
Qed.

Lemma rfind_app_last c l1 l2 :
  c ∉ l2 → rfind c (l1 ++ c :: l2) = Z.of_nat (length l1).
Proof.
  intros Hl2. induction l1 as [|x l1 IH]; cbn [app rfind length].
  - rewrite rfind_notin by done. rewrite decide_False by lia.
    by rewrite bool_decide_true.
  - rewrite IH, decide_True by lia. lia.
Qed.

Lemma basename_input name :
  "/"%char ∉ String.list_ascii_of_string name →
  basename ("rag_project/input/" +:+ name) = name.
Proof.
  intros Hname. unfold basename. rewrite list_ascii_app.
  change (String.list_ascii_of_string "rag_project/input/")
    with (String.list_ascii_of_string "rag_project/input" ++ ["/"%char]).
  generalize (String.list_ascii_of_string "rag_project/input"). intros l.
  rewrite <-(assoc_L (++)). cbn [app].
  rewrite rfind_app_last by done.
  replace (Z.to_nat (Z.of_nat (length l) + 1)) with (length (l ++ ["/"%char]))
    by (rewrite length_app; cbn [length]; lia).
  change (l ++ "/"%char :: String.list_ascii_of_string name)
    with (l ++ ["/"%char] ++ String.list_ascii_of_string name).
  rewrite (assoc_L (++) l ["/"%char] (String.list_ascii_of_string name)).
  rewrite drop_app_length.
  apply String.string_of_list_ascii_of_string.
Qed.

(** *** The two steps of a save *)

(** The input directory is there after the first step, and no file is
    touched by it. *)
Lemma ensure_input_dir (d : disk) :
  files d !! "rag_project" = None →
  ∃ d1,
    (if disk_exists d INPUT_DIR then Return d else make_input_dir d)
      = Return d1 ∧
    files d1 = files d ∧
    (files d !! "rag_project/input" = None → INPUT_DIR ∈ dirs d1) ∧
    ∀ p, p ∈ dirs d1 → p ∈ dirs d ∨ p ∈ ({[RAG_DIR; INPUT_DIR]} : gset string).
Proof.
  intros Hproject. unfold disk_exists, make_input_dir.
  change RAG_DIR with "rag_project". rewrite Hproject.
  change INPUT_DIR with "rag_project/input".
  destruct (bool_decide_reflect ("rag_project/input" ∈ dirs d)) as [Hin|Hout];
    cbn [orb].
  - exists d. repeat split; [done|]. by left.
  - destruct (bool_decide_reflect (is_Some (files d !! "rag_project/input")))
      as [Hfile|Hnofile].
    + exists d. repeat split; [|by left].
      intros Hnone. rewrite Hnone in Hfile. by destruct Hfile.
    + rewrite bool_decide_false by (intros [? ?]; done).
      eexists. repeat split; cbn [dirs files].
      * intros _. apply elem_of_union. left. apply elem_of_union. right.
        by apply elem_of_singleton.
      * intros p [Hp|Hp]%elem_of_union; [by right|by left].
Qed.

Lemma no_nul_input name :
  Ascii.zero ∉ String.list_ascii_of_string name →
  Ascii.zero ∉ String.list_ascii_of_string ("rag_project/input/" +:+ name).
Proof.
  intros Hname. rewrite list_ascii_app. apply not_elem_of_app. split; [|done].
  vm_compute. intros H.
  repeat (apply elem_of_cons in H as [H|H]; [discriminate H|]).
  by apply elem_of_nil in H.
Qed.

Lemma write_input_file (d : disk) name content :
  name ≠ "" →
  name ∉ ["."; ".."] →
  "/"%char ∉ String.list_ascii_of_string name →
  Ascii.zero ∉ String.list_ascii_of_string name →
  String.length name ≤ NAME_MAX →
  INPUT_DIR ∈ dirs d →
  "rag_project/input/" +:+ name ∉ dirs d →
  write_file d ("rag_project/input/" +:+ name) content
  = Return {| dirs := dirs d;
              files := <["rag_project/input/" +:+ name := content]> (files d) |}.
Proof.
  intros Hne Hdots Hname Hnul Hlen Hdir Hfree. unfold write_file.
  rewrite (bool_decide_false _ (no_nul_input name Hnul)).
  rewrite dirname_input, basename_input by done.
  rewrite (bool_decide_true _ Hdir), orb_true_r. cbn [negb orb].
  rewrite (bool_decide_false (NAME_MAX < String.length name)) by lia.
  rewrite ends_with_slash_input, (bool_decide_false _ Hfree),
    (bool_decide_false _ Hdots) by done.
  done.
Qed.

(** The input directory itself, under the names [.] and [..], is not a
    file to write. *)
Lemma write_input_file_dot (d : disk) name content :
  name ∈ ["."; ".."] →
  INPUT_DIR ∈ dirs d →
  write_file d ("rag_project/input/" +:+ name) content
  = Raise (OSError ("[Errno 21] Is a directory: 'rag_project/input/" +:+ name
                    +:+ "'")).
Proof.
  intros Hdots Hdir.
  assert ("/"%char ∉ String.list_ascii_of_string name) as Hname.
  { apply elem_of_cons in Hdots as [->|Hdots];
      [|apply elem_of_cons in Hdots as [->|Hdots];
        [|by apply elem_of_nil in Hdots]];
      vm_compute; intros H;
      repeat (apply elem_of_cons in H as [H|H]; [discriminate H|]);
      by apply elem_of_nil in H. }
  assert (Ascii.zero ∉ String.list_ascii_of_string name) as Hnul.
  { apply elem_of_cons in Hdots as [->|Hdots];
      [|apply elem_of_cons in Hdots as [->|Hdots];
        [|by apply elem_of_nil in Hdots]];
      vm_compute; intros H;
      repeat (apply elem_of_cons in H as [H|H]; [discriminate H|]);
      by apply elem_of_nil in H. }
  assert (String.length name ≤ NAME_MAX) as Hlen.
  { apply elem_of_cons in Hdots as [->|Hdots];
      [|apply elem_of_cons in Hdots as [->|Hdots];
        [|by apply elem_of_nil in Hdots]]; vm_compute; lia. }
  unfold write_file.
  rewrite (bool_decide_false _ (no_nul_input name Hnul)).
  rewrite dirname_input, basename_input by done.
  rewrite (bool_decide_true _ Hdir), orb_true_r. cbn [negb orb].
  rewrite (bool_decide_false (NAME_MAX < String.length name)) by lia.
  rewrite (bool_decide_true _ Hdots), orb_true_r. cbn [orb].
  apply elem_of_cons in Hdots as [->|Hdots];
    [|apply elem_of_cons in Hdots as [->|Hdots];
      [|by apply elem_of_nil in Hdots]]; reflexivity.
Qed.

(** *** Extensions *)

Lemma ascii_lower_dot c : ascii_lower c = "."%char → c = "."%char.
Proof.
  destruct c as [[] [] [] [] [] [] [] []]; vm_compute; intros H;
    first [reflexivity | discriminate H].
Qed.

(** A name part that lowers to [.pdf] is a dot and three letters. *)
Lemma pdf_extension ext :
  lower ext = ".pdf" →
  ∃ c1 c2 c3,
    ext = String "." (String c1 (String c2 (String c3 ""))) ∧
    "."%char ∉ [c1; c2; c3].
Proof.
  destruct ext as [|c0 [|c1 [|c2 [|c3 [|c4 ext]]]]]; cbn [lower];
    try discriminate.
  intros [= H0 H1 H2 H3]. apply ascii_lower_dot in H0 as ->.
  exists c1, c2, c3. split; [done|].
  repeat (apply not_elem_of_cons; split);
    [intros <-; discriminate H1 | intros <-; discriminate H2
    |intros <-; discriminate H3 | apply not_elem_of_nil].
Qed.

Lemma splitext_pdf stem ext :
  "/"%char ∉ String.list_ascii_of_string (stem +:+ ext) →
  lower ext = ".pdf" →
  has_non_dot stem = true →
  splitext (stem +:+ ext) = (stem, ext).
Proof.
  intros Hslash (c1 & c2 & c3 & -> & Hdots)%pdf_extension Hstem.
  unfold splitext. rewrite (rfind_notin "/") by done.
  rewrite list_ascii_app.
  change (String.list_ascii_of_string
            (String "." (String c1 (String c2 (String c3 "")))))
    with ("."%char :: [c1; c2; c3]).
  rewrite rfind_app_last by done.
  rewrite decide_True by lia.
  change (Z.to_nat (-1 + 1)) with 0. rewrite Nat2Z.id, Nat.sub_0_r.
  rewrite drop_0, !take_app_length. unfold has_non_dot in Hstem.
  rewrite Hstem, drop_app_length.
  by rewrite String.string_of_list_ascii_of_string.
Qed.

Lemma str_endswith_pdf stem ext :
  lower ext = ".pdf" → str_endswith ".pdf" (lower (stem +:+ ext)) = true.
Proof.
  intros Hext. unfold str_endswith. apply bool_decide_true.
  rewrite AppFacts.lower_app, Hext, list_ascii_app.
  by exists (String.list_ascii_of_string (lower stem)).
Qed.

(** *** [save_uploaded_file] *)

(** X23. An upload that is not a PDF is stored byte for byte: for a
    plain file name (not empty, not [.] or [..], no slash and no NUL
    byte, at most 255 bytes) that does not end in [.pdf] in any letter
    case, on a disk where neither [rag_project] nor
    [rag_project/input] is a regular file and the target is not a
    directory, the call reports "Saved <name>", the file
    [rag_project/input/<name>] then holds the uploaded bytes, and no
    other file changes; the PDF reader is not consulted. *)
Theorem save_uploaded_file_stores_verbatim extract uploaded d :
  name uploaded ≠ "" →
  name uploaded ∉ ["."; ".."] →
  str_contains "/" (name uploaded) = false →
  str_contains (String Ascii.zero "") (name uploaded) = false →
  String.length (name uploaded) ≤ NAME_MAX →
  str_endswith ".pdf" (lower (name uploaded)) = false →
  files d !! "rag_project" = None →
  files d !! "rag_project/input" = None →
  "rag_project/input/" +:+ name uploaded ∉ dirs d →
  ∃ d',
    save_uploaded_file extract uploaded d
      = Return ((true, "Saved " +:+ name uploaded), d') ∧
    files d'
      = <["rag_project/input/" +:+ name uploaded := buffer uploaded]> (files d).
Proof.
  intros Hne Hdots Hslash%str_contains_char Hnul%str_contains_char Hlen Hpdf
    Hproject Hinput Hfree.
  destruct (ensure_input_dir d Hproject) as (d1 & Hensure & Hfiles & Hdir & Hdirs).
  unfold save_uploaded_file. rewrite Hensure. cbn [mbind outcome_bind].
  rewrite Hpdf, path_join_input by done.
  rewrite write_input_file; [|done|done|done|done|done|by apply Hdir|].
  - cbn [mbind outcome_bind]. eexists. split; [done|]. cbn [files].
    by rewrite Hfiles.
  - intros [Hin|Hin]%Hdirs; [done|].
    by apply (input_path_not_project_dir (name uploaded)) in Hin.
Qed.

Lemma save_uploaded_file_stores_verbatim_witness :
  ∃ d',
    save_uploaded_file Samples.unreadable Samples.notes_upload
      Samples.blank_disk
      = Return ((true, "Saved " +:+ "notes.txt"), d') ∧
    files d'
      = <["rag_project/input/" +:+ "notes.txt" := "IIMs hold a WAT and a PI."]>
          ∅.
Proof.
  apply (save_uploaded_file_stores_verbatim Samples.unreadable
           Samples.notes_upload Samples.blank_disk).
  - discriminate.
  - vm_compute. intros H.
    repeat (apply elem_of_cons in H as [H|H]; [discriminate H|]).
    by apply elem_of_nil in H.
  - reflexivity.
  - reflexivity.
  - vm_compute. lia.
  - vm_compute. reflexivity.
  - reflexivity.
  - reflexivity.
  - vm_compute. intros H. discriminate H.
Defined.

(** X24. A PDF upload is stored as text under a new name: for a plain
    file name [stem + ext] (no slash and no NUL byte, at most 255
    bytes) whose [ext] reads [.pdf] in any letter case and whose
    [stem] is not made of dots only, when the reader returns the
    pages, the call reports "Saved & Converted PDF to <stem>.txt" and
    [rag_project/input/<stem>.txt] holds the page texts concatenated
    in order, a page without text counting as empty; the PDF itself
    is not stored. *)
Theorem save_uploaded_file_converts_pdf extract stem ext bytes pages d :
  str_contains "/" (stem +:+ ext) = false →
  str_contains (String Ascii.zero "") (stem +:+ ext) = false →
  String.length (stem +:+ ext) ≤ NAME_MAX →
  lower ext = ".pdf" →
  has_non_dot stem = true →
  extract bytes = Return pages →
  files d !! "rag_project" = None →
  files d !! "rag_project/input" = None →
  "rag_project/input/" +:+ stem +:+ ".txt" ∉ dirs d →
  ∃ d',
    save_uploaded_file extract {| name := stem +:+ ext; buffer := bytes |} d
      = Return ((true, "Saved & Converted PDF to " +:+ stem +:+ ".txt"), d') ∧
    files d'
      = <["rag_project/input/" +:+ stem +:+ ".txt"
          := String.concat "" (page_text <$> pages)]> (files d).
Proof.
  intros Hslash%str_contains_char Hnul%str_contains_char Hlen Hext Hstem Hpages
    Hproject Hinput Hfree.
  destruct (ensure_input_dir d Hproject) as (d1 & Hensure & Hfiles & Hdir & Hdirs).
  assert ("/"%char ∉ String.list_ascii_of_string (stem +:+ ".txt")) as Htxt.
  { rewrite list_ascii_app in Hslash |- *.
    apply not_elem_of_app in Hslash as [Hs _]. apply not_elem_of_app.
    split; [done|]. vm_compute. intros H.
    repeat (apply elem_of_cons in H as [H|H]; [discriminate H|]).
    by apply elem_of_nil in H. }
  assert (Ascii.zero ∉ String.list_ascii_of_string (stem +:+ ".txt"))
    as Hnul_txt.
  { rewrite list_ascii_app in Hnul |- *.
    apply not_elem_of_app in Hnul as [Hs _]. apply not_elem_of_app.
    split; [done|]. vm_compute. intros H.
    repeat (apply elem_of_cons in H as [H|H]; [discriminate H|]).
    by apply elem_of_nil in H. }
  assert (String.length (stem +:+ ".txt") ≤ NAME_MAX) as Hlen_txt.
  { destruct (pdf_extension ext Hext) as (c1 & c2 & c3 & -> & _).
    rewrite length_append in Hlen |- *. exact Hlen. }
  assert (stem +:+ ".txt" ≠ "") as Hne by by destruct stem.
  assert (stem +:+ ".txt" ∉ ["."; ".."]) as Hdots.
  { intros H. destruct stem as [|a [|b [|c stem]]];
      repeat (apply elem_of_cons in H as [H|H]; [discriminate H|]);
      by apply elem_of_nil in H. }
  unfold save_uploaded_file. rewrite Hensure. cbn [mbind outcome_bind name buffer].
  rewrite str_endswith_pdf, Hpages by done. cbn [mbind outcome_bind].
  rewrite splitext_pdf by done. cbn [fst].
  rewrite path_join_input by done.
  rewrite write_input_file; [|done|done|done|done|done|by apply Hdir|].
  - cbn [mbind outcome_bind]. eexists. split; [done|]. cbn [files].
    by rewrite Hfiles.
  - intros [Hin|Hin]%Hdirs; [done|].
    by apply (input_path_not_project_dir (stem +:+ ".txt")) in Hin.
Qed.

Lemma save_uploaded_file_converts_pdf_witness :
  ∃ d',
    save_uploaded_file Samples.two_pages
      {| name := "Annual Report" +:+ ".PDF"; buffer := "%PDF-1.7" |}
      Samples.blank_disk
      = Return ((true, "Saved & Converted PDF to " +:+ "Annual Report"
                         +:+ ".txt"), d') ∧
    files d'
      = <["rag_project/input/" +:+ "Annual Report" +:+ ".txt"
          := String.concat ""
               (page_text <$> [Some "Page one. "; None; Some "Page three."])]>
          ∅.
Proof.
  apply (save_uploaded_file_converts_pdf Samples.two_pages "Annual Report"
           ".PDF" "%PDF-1.7" [Some "Page one. "; None; Some "Page three."]
           Samples.blank_disk).
  - reflexivity.
  - reflexivity.
  - vm_compute. lia.
  - reflexivity.
  - reflexivity.
  - reflexivity.
  - reflexivity.
  - reflexivity.
  - vm_compute. intros H. discriminate H.
Defined.

(** X25. A PDF that cannot be read is reported, not raised: when the
    name ends in [.pdf] in any letter case and the reader raises, the
    call returns [False] with the text of the exception and no file is
    written or changed. *)
Theorem save_uploaded_file_unreadable_pdf extract uploaded d e :
  str_endswith ".pdf" (lower (name uploaded)) = true →
  extract (buffer uploaded) = Raise e →
  files d !! "rag_project" = None →
  ∃ d',
    save_uploaded_file extract uploaded d = Return ((false, exn_str e), d') ∧
    files d' = files d.
Proof.
  intros Hpdf Hraise Hproject.
  destruct (ensure_input_dir d Hproject) as (d1 & Hensure & Hfiles & _).
  unfold save_uploaded_file. rewrite Hensure. cbn [mbind outcome_bind].
  rewrite Hpdf, Hraise. cbn [mbind outcome_bind]. by exists d1.
Qed.

Lemma save_uploaded_file_unreadable_pdf_witness :
  ∃ d',
    save_uploaded_file Samples.unreadable
      {| name := "scan.pdf"; buffer := "not a pdf" |} Samples.blank_disk
      = Return ((false,
                 exn_str (OSError "No /Root object! - Is this really a PDF?")),
                d') ∧
    files d' = files Samples.blank_disk.
Proof.
  apply (save_uploaded_file_unreadable_pdf Samples.unreadable
           {| name := "scan.pdf"; buffer := "not a pdf" |} Samples.blank_disk).
  - vm_compute. reflexivity.
  - reflexivity.
  - reflexivity.
Defined.

(** Names that the file system does not take as a new file: the
    plain branch raises, the PDF branch reports. *)
Example save_uploaded_file_refused_names :
  save_uploaded_file Samples.unreadable {| name := "."; buffer := "x" |}
    Samples.blank_disk
  = Raise (OSError "[Errno 21] Is a directory: 'rag_project/input/.'") ∧
  save_uploaded_file Samples.unreadable {| name := ".."; buffer := "x" |}
    Samples.blank_disk
  = Raise (OSError "[Errno 21] Is a directory: 'rag_project/input/..'") ∧
  save_uploaded_file Samples.unreadable
    {| name := String Ascii.zero "notes.txt"; buffer := "x" |}
    Samples.blank_disk
  = Raise (ValueError "embedded null byte") ∧
  ∃ d',
    save_uploaded_file Samples.two_pages
      {| name := String Ascii.zero "report.pdf"; buffer := "%PDF-1.7" |}
      Samples.blank_disk
    = Return ((false, "embedded null byte"), d').
Proof.
  split; [|split; [|split]]; [vm_compute; reflexivity..|].
  eexists. vm_compute. reflexivity.
Qed.

Example splitext_samples :
  splitext "report.PDF" = ("report", ".PDF") ∧
  splitext ".pdf" = (".pdf", "") ∧
  splitext "..pdf" = ("..pdf", "") ∧
  splitext "a.b/c" = ("a.b/c", "") ∧
  splitext "archive.tar.gz" = ("archive.tar", ".gz").
Proof. repeat split; vm_compute; reflexivity. Qed.

End UploadFacts.
